(** * Alert scheduling model of the medication-reminder backend

    A shallow embedding of the Mongoose [Alert] model (the [status]
    virtual and the instance methods [calculateNextTrigger],
    [markTriggered] and [snooze]) together with the part of the
    ECMAScript [Date] built-in those methods call; then of the helper
    functions, of the methods of the Report, Discussion and Medication
    models, of the snooze endpoint and of the authentication
    middleware.

    Modelling conventions.
    - A JavaScript number is an integer of [Z], or [NaN]; the fractional
      and infinite doubles are not modelled.  Every quantity the alert
      methods compute on clock instants is an integer below 2^53, where
      double arithmetic is exact.
    - A [Date] object is its time value: milliseconds since the epoch, or
      [NaN] for an invalid date.
    - The local time zone is a fixed offset [LocalTZA] from UTC (no
      daylight-saving transitions).
    - [new Date()] reads the system clock; each reading a method makes is a
      parameter of the method, in the order the readings are made.
    - [this.save()] persists the document and is not modelled: the methods
      are followed on the in-memory document only. *)

From Stdlib Require Import ZArith Lia List Bool String Ascii.
From Stdlib Require Import DecimalString Permutation.
Import ListNotations.

Open Scope Z_scope.

(** ** Numbers *)

(** [None] is [NaN]. *)
Definition number : Type := option Z.

Definition NaN : number := None.

(** The binary [+] on two numbers. *)
Definition num_add (x y : number) : number :=
  match x, y with
  | Some a, Some b => Some (a + b)
  | _, _ => NaN
  end.

(** [x <= y] on numbers: a comparison with [NaN] is false. *)
Definition num_le (x y : number) : bool :=
  match x, y with
  | Some a, Some b => a <=? b
  | _, _ => false
  end.

(** ** Day number and time within day (ECMAScript 21.4.1) *)

Definition msPerSecond : Z := 1000.
Definition msPerMinute : Z := 60000.
Definition msPerHour : Z := 3600000.
Definition msPerDay : Z := 86400000.

Definition HoursPerDay : Z := 24.
Definition MinutesPerHour : Z := 60.
Definition SecondsPerMinute : Z := 60.

(** The largest magnitude of a time value: 8.64e15 ms. *)
Definition maxTimeValue : Z := 8640000000000000.

Definition Day (t : Z) : Z := t / msPerDay.

Definition TimeWithinDay (t : Z) : Z := t mod msPerDay.

Definition DaysInYear (y : Z) : Z :=
  if negb (y mod 4 =? 0) then 365
  else if negb (y mod 100 =? 0) then 366
  else if negb (y mod 400 =? 0) then 365
  else 366.

Definition DayFromYear (y : Z) : Z :=
  365 * (y - 1970) + (y - 1969) / 4 - (y - 1901) / 100 + (y - 1601) / 400.

(** The year of a day number: the largest [y] with [DayFromYear y <= d].
    The mean year of 365.2425 days gives an estimate that is off by at
    most one. *)
Definition YearFromDay (d : Z) : Z :=
  let y := 1970 + (400 * d) / 146097 in
  if DayFromYear (y + 1) <=? d then y + 1
  else if DayFromYear y <=? d then y
  else y - 1.

Definition YearFromTime (t : Z) : Z := YearFromDay (Day t).

(** 1 in a leap year, 0 otherwise. *)
Definition InLeapYear (t : Z) : Z :=
  if DaysInYear (YearFromTime t) =? 366 then 1 else 0.

Definition DayWithinYear (t : Z) : Z := Day t - DayFromYear (YearFromTime t).

(** Month number, 0 = January .. 11 = December. *)
Definition MonthFromTime (t : Z) : Z :=
  let d := DayWithinYear t in
  let l := InLeapYear t in
  if d <? 31 then 0
  else if d <? 59 + l then 1
  else if d <? 90 + l then 2
  else if d <? 120 + l then 3
  else if d <? 151 + l then 4
  else if d <? 181 + l then 5
  else if d <? 212 + l then 6
  else if d <? 243 + l then 7
  else if d <? 273 + l then 8
  else if d <? 304 + l then 9
  else if d <? 334 + l then 10
  else 11.

(** Day of the month, 1 .. 31. *)
Definition DateFromTime (t : Z) : Z :=
  let d := DayWithinYear t in
  let l := InLeapYear t in
  match MonthFromTime t with
  | 0 => d + 1
  | 1 => d - 30
  | 2 => d - 58 - l
  | 3 => d - 89 - l
  | 4 => d - 119 - l
  | 5 => d - 150 - l
  | 6 => d - 180 - l
  | 7 => d - 211 - l
  | 8 => d - 242 - l
  | 9 => d - 272 - l
  | 10 => d - 303 - l
  | _ => d - 333 - l
  end.

(** Day of the week, 0 = Sunday .. 6 = Saturday. *)
Definition WeekDay (t : Z) : Z := (Day t + 4) mod 7.

Definition HourFromTime (t : Z) : Z := (t / msPerHour) mod HoursPerDay.
Definition MinFromTime (t : Z) : Z := (t / msPerMinute) mod MinutesPerHour.
Definition SecFromTime (t : Z) : Z := (t / msPerSecond) mod SecondsPerMinute.
Definition msFromTime (t : Z) : Z := t mod msPerSecond.

Definition MakeTime (hour min sec ms : Z) : Z :=
  hour * msPerHour + min * msPerMinute + sec * msPerSecond + ms.

(** Number of days from the start of a year to the start of month [mn]
    (0 .. 11); [l] is 1 in a leap year. *)
Definition DayFromMonth (mn l : Z) : Z :=
  match mn with
  | 0 => 0
  | 1 => 31
  | 2 => 59 + l
  | 3 => 90 + l
  | 4 => 120 + l
  | 5 => 151 + l
  | 6 => 181 + l
  | 7 => 212 + l
  | 8 => 243 + l
  | 9 => 273 + l
  | 10 => 304 + l
  | _ => 334 + l
  end.

(** [MakeDay]: the day number of the first of month [month] of [year]
    (months beyond 0 .. 11 carry into the year), moved by [date - 1]
    days. *)
Definition MakeDay (year month date : Z) : Z :=
  let ym := year + month / 12 in
  let mn := month mod 12 in
  let l := if DaysInYear ym =? 366 then 1 else 0 in
  DayFromYear ym + DayFromMonth mn l + date - 1.

Definition MakeDate (day time : Z) : Z := day * msPerDay + time.

(** [TimeClip]: a time value beyond the representable range is [NaN]. *)
Definition TimeClip (t : Z) : number :=
  if maxTimeValue <? Z.abs t then NaN else Some t.

(** ** Strings: [String.prototype.split] and [Number] *)

(** [s.split(sep)] for a one-character separator: the pieces of [s]
    between the occurrences of [sep], never an empty array. *)
Fixpoint split (sep : ascii) (s : string) : list string :=
  match s with
  | EmptyString => [EmptyString]
  | String c s' =>
      if Ascii.eqb c sep then EmptyString :: split sep s'
      else match split sep s' with
           | w :: ws => String c w :: ws
           | [] => [String c EmptyString]
           end
  end.

Definition isDigit (c : ascii) : bool :=
  let n := Z.of_N (N_of_ascii c) in (48 <=? n) && (n <=? 57).

Definition digitValue (c : ascii) : Z := Z.of_N (N_of_ascii c) - 48.

Fixpoint digitsValue (acc : Z) (s : string) : number :=
  match s with
  | EmptyString => Some acc
  | String c s' =>
      if isDigit c then digitsValue (10 * acc + digitValue c) s' else NaN
  end.

(** [Number(s)] on a string of decimal digits; the empty string is 0.
    The other numeric literal forms (sign, white space, fraction,
    exponent, radix prefix) are outside the model and read as [NaN]
    here; no string that matches the schema's time pattern has them. *)
Definition Number (s : string) : number := digitsValue 0 s.

(** Element [i] of an array of numbers in a destructuring pattern, used
    as a number: a missing element is [undefined], which converts to
    [NaN]. *)
Definition element (i : nat) (l : list number) : number := nth i l NaN.

(** ** The Alert document *)

Inductive Frequency : Type := daily | weekly | monthly | custom.

Inductive DayName : Type :=
  monday | tuesday | wednesday | thursday | friday | saturday | sunday.

(** A [Date] object, by its time value ([NaN] for an invalid date). *)
Definition Date : Type := number.

(** The scheduling fields of the schema.  [None] in [lastTriggered] and
    [nextTrigger] is [null].  The remaining fields ([user], [medication],
    [message], [sound], [vibration]) are neither read nor written by the
    methods below. *)
Record Alert : Type := mkAlert {
  time : string;
  frequency : Frequency;
  daysOfWeek : list DayName;
  isActive : bool;
  lastTriggered : option Date;
  nextTrigger : option Date;
  snoozeTime : Z;
  maxSnoozes : Z;
  currentSnoozes : Z
}.

Definition set_lastTriggered (v : option Date) (a : Alert) : Alert :=
  mkAlert (time a) (frequency a) (daysOfWeek a) (isActive a)
          v (nextTrigger a) (snoozeTime a) (maxSnoozes a) (currentSnoozes a).

Definition set_nextTrigger (v : option Date) (a : Alert) : Alert :=
  mkAlert (time a) (frequency a) (daysOfWeek a) (isActive a)
          (lastTriggered a) v (snoozeTime a) (maxSnoozes a) (currentSnoozes a).

Definition set_currentSnoozes (v : Z) (a : Alert) : Alert :=
  mkAlert (time a) (frequency a) (daysOfWeek a) (isActive a)
          (lastTriggered a) (nextTrigger a) (snoozeTime a) (maxSnoozes a) v.

(** The schema's pattern for [time]:
    [/^([0-1]?[0-9]|2[0-3]):[0-5][0-9]$/]. *)
Definition timePattern (s : string) : bool :=
  match s with
  | String h0 (String c (String m1 (String m0 EmptyString))) =>
      isDigit h0 && Ascii.eqb c ":"
      && (isDigit m1 && (digitValue m1 <=? 5)) && isDigit m0
  | String h1 (String h0 (String c (String m1 (String m0 EmptyString)))) =>
      (((isDigit h1 && (digitValue h1 <=? 1)) && isDigit h0)
       || (Ascii.eqb h1 "2" && (isDigit h0 && (digitValue h0 <=? 3))))
      && Ascii.eqb c ":"
      && (isDigit m1 && (digitValue m1 <=? 5)) && isDigit m0
  | _ => false
  end.

(** The schema's bounds on [snoozeTime]: min 1, max 60. *)
Definition snoozeTimeValid (a : Alert) : Prop := 1 <= snoozeTime a <= 60.

(** ** Methods as state transformers on [this] *)

Inductive Exception : Type := Error (message : string).

Inductive Completion (A : Type) : Type :=
  | Normal (v : A)
  | Throw (e : Exception).

Arguments Normal {A} v.
Arguments Throw {A} e.

(** A method body run on the document [this]: the document it leaves and
    how it completed. *)
Definition Method (A : Type) : Type := Alert -> Alert * Completion A.

Definition ret {A : Type} (v : A) : Method A := fun this => (this, Normal v).

Definition throw {A : Type} (e : Exception) : Method A :=
  fun this => (this, Throw e).

Definition bind {A B : Type} (m : Method A) (k : A -> Method B) : Method B :=
  fun this =>
    match m this with
    | (this', Normal v) => k v this'
    | (this', Throw e) => (this', Throw e)
    end.

(** Read a field of [this]. *)
Definition read {A : Type} (f : Alert -> A) : Method A :=
  fun this => (this, Normal (f this)).

(** Assign to a field of [this]. *)
Definition assign (upd : Alert -> Alert) : Method unit :=
  fun this => (upd this, Normal tt).

(** [this.save()]: persistence is outside the model. *)
Definition save : Method unit := ret tt.

Notation "x <- m ;; k" := (bind m (fun x => k))
  (at level 61, m at next level, right associativity).
Notation "m ;;; k" := (bind m (fun _ => k))
  (at level 61, right associativity).

(** The document a method leaves. *)
Definition after {A : Type} (m : Method A) (this : Alert) : Alert :=
  fst (m this).

(** How a method completes. *)
Definition completion {A : Type} (m : Method A) (this : Alert) : Completion A :=
  snd (m this).

Definition returns {A : Type} (c : Completion A) : bool :=
  match c with Normal _ => true | Throw _ => false end.

(** The [status] virtual. *)
Inductive Status : Type := inactive | overdue | active.

Definition status (this : Alert) : Status :=
  if negb (isActive this) then inactive
  else if currentSnoozes this >=? maxSnoozes this then overdue
  else active.

(** A clock reading usable by the methods: far enough from the ends of
    the time-value range for the next day to be representable. *)
Definition clockReading (t : Z) : Prop :=
  Z.abs t <= maxTimeValue - 2 * msPerDay.

(** [new Date()] at a clock reading. *)
Definition newDate (clock : Z) : Date := Some clock.

(** [new Error('Maximum snoozes reached')], the error [snooze] throws;
    the specification's name for it is SnoozeLimitExceededError. *)
Definition SnoozeLimitExceededError : Exception :=
  Error "Maximum snoozes reached".

(** * The other models, the helpers and the middleware *)

(** ** More of the number operations

    These are exact as long as the operands are safe integers (below
    2^53 in magnitude), which the statements about them assume. *)



(** The binary [-] on two numbers. *)
Definition num_sub (x y : number) : number :=
  match x, y with
  | Some a, Some b => Some (a - b)
  | _, _ => NaN
  end.

Definition Math_abs (x : number) : number := option_map Z.abs x.

(** [Math.floor(x / d)] for a non-zero integer constant [d]. *)
Definition Math_floor_div (x : number) (d : Z) : number :=
  option_map (fun a => a / d) x.


(** [x % d]: the remainder has the sign of [x]. *)
Definition num_rem (x : number) (d : Z) : number :=
  option_map (fun a => Z.rem a d) x.

(** [String(x)] and template-literal conversion of an integer or
    [NaN]. *)
Definition ToString (x : number) : string :=
  match x with
  | Some n => NilZero.string_of_int (Z.to_int n)
  | None => "NaN"
  end.

(** ** More of the string operations *)






(** [s.replace(/c/g, r)] for a one-character pattern and a replacement
    without [$]. *)
Fixpoint replaceAll (c : ascii) (r : string) (s : string) : string :=
  match s with
  | EmptyString => EmptyString
  | String a s' =>
      if Ascii.eqb a c then r ++ replaceAll c r s'
      else String a (replaceAll c r s')
  end.

(** [padString.repeat(n)] for a one-character [padString]. *)
Fixpoint padding (c : ascii) (n : nat) : string :=
  match n with
  | O => EmptyString
  | S n' => String c (padding c n')
  end.

(** [s.padStart(targetLength, c)] for a one-character pad string. *)
Definition padStart (targetLength : nat) (c : ascii) (s : string) : string :=
  padding c (targetLength - String.length s) ++ s.

(** [s] without its first [n] characters. *)
Fixpoint dropChars (n : nat) (s : string) : string :=
  match n, s with
  | O, _ => s
  | S _, EmptyString => EmptyString
  | S n', String _ s' => dropChars n' s'
  end.

(** [s.replace(pat, rep)] for a string pattern and a replacement without
    [$]: the first occurrence of [pat] is replaced. *)
Fixpoint replaceFirst (pat rep s : string) : string :=
  if prefix pat s then rep ++ dropChars (String.length pat) s
  else match s with
       | EmptyString => EmptyString
       | String c s' => String c (replaceFirst pat rep s')
       end.

(** Whether every character of [s] satisfies [p]. *)
Fixpoint everyChar (p : ascii -> bool) (s : string) : bool :=
  match s with
  | EmptyString => true
  | String c s' => p c && everyChar p s'
  end.

(** The characters of a printed integer. *)
Definition isDecimalChar (c : ascii) : bool := isDigit c || Ascii.eqb c "-".

(** The two decimal digits of a number from 0 to 99. *)
Definition twoDigits (n : Z) : string :=
  String (ascii_of_N (Z.to_N (48 + n / 10)))
    (String (ascii_of_N (Z.to_N (48 + n mod 10))) EmptyString).

(** Whether character [c] occurs in [s]. *)
Fixpoint occurs (c : ascii) (s : string) : bool :=
  match s with
  | EmptyString => false
  | String a s' => Ascii.eqb a c || occurs c s'
  end.

(** ** Helper functions *)

Module Helpers.

Record TimeDifference : Type := mkTimeDifference {
  days : number;
  hours : number;
  minutes : number;
  seconds : number
}.

(** [getTimeDifference(date1, date2 = new Date())]; [clock] is the clock
    reading the default of [date2] makes. *)
Definition getTimeDifference (date1 : Date) (date2 : option Date) (clock : Z)
  : TimeDifference :=
  let date2 := match date2 with Some d => d | None => newDate clock end in
  let diff := Math_abs (num_sub date2 date1) in
  {| days := Math_floor_div diff (1000 * 60 * 60 * 24);
     hours := Math_floor_div (num_rem diff (1000 * 60 * 60 * 24))
                             (1000 * 60 * 60);
     minutes := Math_floor_div (num_rem diff (1000 * 60 * 60)) (1000 * 60);
     seconds := Math_floor_div (num_rem diff (1000 * 60)) 1000 |}.

(** The six characters [sanitizeHtml] replaces, with their entities. *)
Definition sanitizeHtml (content : string) : string :=
  replaceAll "/" "&#x2F;"
    (replaceAll "'" "&#x27;"
       (replaceAll "034" "&quot;"
          (replaceAll ">" "&gt;"
             (replaceAll "<" "&lt;"
                (replaceAll "&" "&amp;" content))))).




(** One pass over the text that writes each of the six characters as its
    entity. *)
Definition entityOf (c : ascii) : string :=
  if Ascii.eqb c "&" then "&amp;"
  else if Ascii.eqb c "<" then "&lt;"
  else if Ascii.eqb c ">" then "&gt;"
  else if Ascii.eqb c "034" then "&quot;"
  else if Ascii.eqb c "'" then "&#x27;"
  else if Ascii.eqb c "/" then "&#x2F;"
  else String c EmptyString.

Fixpoint escapeOnce (s : string) : string :=
  match s with
  | EmptyString => EmptyString
  | String c s' => entityOf c ++ escapeOnce s'
  end.

End Helpers.

(** ** The [ApiError] class of the error handler *)

Module ApiError.

(** [`${statusCode}`.startsWith('4') ? 'fail' : 'error'] *)
Definition status (statusCode : Z) : string :=
  if prefix "4" (ToString (Some statusCode)) then "fail"%string
  else "error"%string.

End ApiError.

(** ** The Medication model: the [duration] virtual *)

Module Medication.


End Medication.

(** ** The alert controller: [snoozeAlert] *)

Module AlertController.



End AlertController.

(** ** The Report model *)

Module Report.

(** The fields [markTaken] and [markSkipped] write, and [taken].  [None]
    is [null] or a field that is not set. *)
Record Doc : Type := mkDoc {
  taken : bool;
  takenAt : option Date;
  skipped : bool;
  skippedReason : option string;
  dosageTaken : option string;
  timeTaken : option string;
  notes : option string
}.









End Report.

(** ** The Discussion model *)

Module Reply.

(** A reply subdocument; [_id] is the identifier of the subdocument. *)
Record Doc : Type := mkDoc {
  _id : string;
  user : string;
  content : string;
  isEdited : bool;
  editedAt : option Date;
  likes : list string;
  isSolution : bool
}.


End Reply.

Module Discussion.

(** The fields the virtuals and the methods below read or write.
    Identifiers are hexadecimal strings (an [ObjectId] compares by its
    string). *)
Record Doc : Type := mkDoc {
  isActive : bool;
  isSticky : bool;
  isLocked : bool;
  views : Z;
  likes : list string;
  replies : list Reply.Doc;
  lastReply : option Date
}.












End Discussion.

(** ** The authentication middleware

    [jwt.verify] and [User.findById] are parameters: each returns a
    value or throws an error, of which the handler reads the [name]. *)

Module Auth.

Record User : Type := mkUser {
  _id : string;
  isActive : bool
}.

(** The payload of a token. *)
Record Decoded : Type := mkDecoded { id : string }.

Inductive Try (A : Type) : Type :=
  | Returned (v : A)
  | Thrown (name : string).

Arguments Returned {A} v.
Arguments Thrown {A} name.

(** What the middleware does with the request: it answers with a status
    and an [error] text, or calls [next()] with [req.user] as given
    ([None] when it is not set). *)
Inductive Outcome : Type :=
  | Json (status : Z) (error : string)
  | Next (user : option User).

(** [authHeader && authHeader.split(' ')[1]]: [None] is [undefined]. *)
Definition tokenOf (authorization : option string) : option string :=
  match authorization with
  | None => None
  | Some EmptyString => Some EmptyString
  | Some h => nth_error (split " " h) 1
  end.

(** The handler of the [catch] block of [authenticateToken]. *)
Definition rejected (name : string) : Outcome :=
  if String.eqb name "JsonWebTokenError" then Json 401 "Invalid token"
  else if String.eqb name "TokenExpiredError" then Json 401 "Token expired"
  else Json 500 "Authentication failed".

Definition authenticateToken
  (verify : string -> Try Decoded)
  (findById : string -> Try (option User))
  (authorization : option string) : Outcome :=
  match tokenOf authorization with
  | None | Some EmptyString => Json 401 "No token provided"
  | Some token =>
      match verify token with
      | Thrown name => rejected name
      | Returned decoded =>
          match findById (id decoded) with
          | Thrown name => rejected name
          | Returned None => Json 401 "Invalid token - user not found"
          | Returned (Some user) =>
              if negb (isActive user)
              then Json 401 "User account is deactivated"
              else Next (Some user)
          end
      end
  end.

Definition optionalAuth
  (verify : string -> Try Decoded)
  (findById : string -> Try (option User))
  (authorization : option string) : Outcome :=
  match tokenOf authorization with
  | None | Some EmptyString => Next None
  | Some token =>
      match verify token with
      | Thrown _ => Next None
      | Returned decoded =>
          match findById (id decoded) with
          | Thrown _ => Next None
          | Returned None => Next None
          | Returned (Some user) =>
              if isActive user then Next (Some user) else Next None
          end
      end
  end.

End Auth.

Section Zone.

(** Offset of the local time zone from UTC, in milliseconds; below a
    day in magnitude. *)
Variable LocalTZA : Z.
Hypothesis LocalTZA_range : Z.abs LocalTZA <= msPerDay.

Definition LocalTime (t : Z) : Z := t + LocalTZA.

Definition UTC (t : Z) : Z := t - LocalTZA.

(** ** [Date.prototype] methods *)

Definition getDate (d : Date) : number :=
  match d with
  | Some t => Some (DateFromTime (LocalTime t))
  | None => NaN
  end.

Definition getMinutes (d : Date) : number :=
  match d with
  | Some t => Some (MinFromTime (LocalTime t))
  | None => NaN
  end.

(** [d.setHours(hour, min, sec, ms)]: the new time value of [d]. *)
Definition setHours (d : Date) (hour min sec ms : number) : Date :=
  match d, hour, min, sec, ms with
  | Some t, Some h, Some m, Some s, Some milli =>
      let t := LocalTime t in
      TimeClip (UTC (MakeDate (Day t) (MakeTime h m s milli)))
  | _, _, _, _, _ => NaN
  end.

(** [d.setDate(date)]. *)
Definition setDate (d : Date) (date : number) : Date :=
  match d, date with
  | Some t, Some dt =>
      let t := LocalTime t in
      TimeClip (UTC (MakeDate (MakeDay (YearFromTime t) (MonthFromTime t) dt)
                              (TimeWithinDay t)))
  | _, _ => NaN
  end.

(** [d.setMinutes(min)]. *)
Definition setMinutes (d : Date) (min : number) : Date :=
  match d, min with
  | Some t, Some m =>
      let t := LocalTime t in
      TimeClip (UTC (MakeDate (Day t)
                       (MakeTime (HourFromTime t) m (SecFromTime t) (msFromTime t))))
  | _, _ => NaN
  end.

(** [new Date(year, month, date, hours, minutes)], as a time value: the
    instant of a local wall-clock reading. *)
Definition localInstant (year month date hours minutes : Z) : Z :=
  UTC (MakeDate (MakeDay year month date) (MakeTime hours minutes 0 0)).

(** ** Instance methods of the schema *)

(** [calculateNextTrigger]; [clock0] and [clock1] are the two clock
    readings, for [now] and for the initial [nextTrigger]. *)
Definition calculateNextTrigger (clock0 clock1 : Z) : Method unit :=
  let now := newDate clock0 in
  t <- read time ;;
  let parts := map Number (split ":" t) in
  let hours := element 0 parts in
  let minutes := element 1 parts in
  let nextTrigger := newDate clock1 in
  let nextTrigger := setHours nextTrigger hours minutes (Some 0) (Some 0) in
  let nextTrigger :=
    if num_le nextTrigger now
    then setDate nextTrigger (num_add (getDate nextTrigger) (Some 1))
    else nextTrigger in
  assign (set_nextTrigger (Some nextTrigger)) ;;;
  save.

(** [markTriggered]; [clock0] is the reading stored in [lastTriggered],
    [clock1] and [clock2] are the readings of [calculateNextTrigger]. *)
Definition markTriggered (clock0 clock1 clock2 : Z) : Method unit :=
  assign (set_lastTriggered (Some (newDate clock0))) ;;;
  assign (set_currentSnoozes 0) ;;;
  calculateNextTrigger clock1 clock2 ;;;
  save.

(** [snooze]; [clock] is the reading of [new Date()]. *)
Definition snooze (clock : Z) : Method unit :=
  cur <- read currentSnoozes ;;
  max <- read maxSnoozes ;;
  if cur >=? max then throw SnoozeLimitExceededError
  else
    assign (set_currentSnoozes (cur + 1)) ;;;
    let snoozeTime_ := newDate clock in
    mins <- read snoozeTime ;;
    let snoozeTime_ :=
      setMinutes snoozeTime_ (num_add (getMinutes snoozeTime_) (Some mins)) in
    assign (set_nextTrigger (Some snoozeTime_)) ;;;
    save.

(** [snooze] called once per clock reading of the list, in order; the
    first call that throws ends the sequence. *)
Fixpoint snoozes (clocks : list Z) : Method unit :=
  match clocks with
  | [] => ret tt
  | c :: cs => snooze c ;;; snoozes cs
  end.

(** A lifecycle operation on a document, with the clock readings it
    makes. *)
Inductive Operation : Type :=
  | OpSnooze (clock : Z)
  | OpMarkTriggered (clock0 clock1 clock2 : Z)
  | OpCalculateNextTrigger (clock0 clock1 : Z).

Definition perform (op : Operation) : Method unit :=
  match op with
  | OpSnooze c => snooze c
  | OpMarkTriggered c0 c1 c2 => markTriggered c0 c1 c2
  | OpCalculateNextTrigger c0 c1 => calculateNextTrigger c0 c1
  end.

(** A history of operations on one document; a call that throws leaves
    the document to the next call as it is. *)
Definition performAll (ops : list Operation) (this : Alert) : Alert :=
  fold_left (fun doc op => after (perform op) doc) ops this.

(** ** Vocabulary of the statements *)

(** The hour and the minute a [time] string denotes, as
    [calculateNextTrigger] reads them. *)
Definition hoursOf (s : string) : Z :=
  match element 0 (map Number (split ":" s)) with
  | Some h => h
  | None => 0
  end.

Definition minutesOf (s : string) : Z :=
  match element 1 (map Number (split ":" s)) with
  | Some m => m
  | None => 0
  end.

(** The instant on the local calendar date of [now] at the time of day
    [s]. *)
Definition todayAt (now : Z) (s : string) : Z :=
  UTC (MakeDate (Day (LocalTime now)) (MakeTime (hoursOf s) (minutesOf s) 0 0)).

(** The trigger [calculateNextTrigger] stores: the time of day on the day
    of the second clock reading, moved to the next day when it is not
    after the first reading. *)
Definition triggerFor (clock0 clock1 : Z) (s : string) : Z :=
  if todayAt clock1 s <=? clock0 then todayAt clock1 s + msPerDay
  else todayAt clock1 s.

(** The counter invariant of a document. *)
Definition snoozesBounded (this : Alert) : Prop :=
  0 <= currentSnoozes this <= maxSnoozes this.

(** Number of days of month [mn] of year [y]. *)
Definition DaysInMonth (y mn : Z) : Z := MakeDay y (mn + 1) 1 - MakeDay y mn 1.

(** The monthly rule in the words of the specification: today at the time
    of day when that is still ahead, otherwise the same day of the next
    month, or that month's last day when it is shorter. *)
Definition spec_monthly_next (s : string) (now : Z) : Z :=
  let today := todayAt now s in
  if now <? today then today
  else
    let t := LocalTime now in
    let y := YearFromTime t in
    let mn := MonthFromTime t + 1 in
    let dt := Z.min (DateFromTime t) (DaysInMonth y mn) in
    UTC (MakeDate (MakeDay y mn dt) (MakeTime (hoursOf s) (minutesOf s) 0 0)).

(** The day name of a [getDay()] number. *)
Definition dayNameOf (wd : Z) : DayName :=
  match wd with
  | 0 => sunday
  | 1 => monday
  | 2 => tuesday
  | 3 => wednesday
  | 4 => thursday
  | 5 => friday
  | _ => saturday
  end.

Definition DayName_eqb (x y : DayName) : bool :=
  match x, y with
  | monday, monday | tuesday, tuesday | wednesday, wednesday
  | thursday, thursday | friday, friday | saturday, saturday
  | sunday, sunday => true
  | _, _ => false
  end.

(** Whether the local weekday of instant [t] is one of [days]. *)
Definition onDay (days : list DayName) (t : Z) : bool :=
  existsb (DayName_eqb (dayNameOf (WeekDay (LocalTime t)))) days.

Fixpoint spec_custom_search (days : list DayName) (now cand : Z) (n : nat)
  : option Z :=
  match n with
  | O => None
  | S n' =>
      if (now <? cand) && onDay days cand then Some cand
      else spec_custom_search days now (cand + msPerDay) n'
  end.

Definition InvalidScheduleError : Exception := Error "InvalidScheduleError".

(** The custom rule in the words of the specification: the first of
    today and the seven days after it that is one of [days] and whose
    instant at the time of day is after [now]; an error when [days] is
    empty. *)
Definition spec_custom_next (days : list DayName) (s : string) (now : Z)
  : Completion Z :=
  match days with
  | [] => Throw InvalidScheduleError
  | _ :: _ =>
      match spec_custom_search days now (todayAt now s) 8 with
      | Some t => Normal t
      | None => Throw InvalidScheduleError
      end
  end.

(** ** The [formatDate] helper *)

Definition getFullYear (d : Date) : number :=
  option_map (fun t => YearFromTime (LocalTime t)) d.

Definition getMonth (d : Date) : number :=
  option_map (fun t => MonthFromTime (LocalTime t)) d.

Definition getHours (d : Date) : number :=
  option_map (fun t => HourFromTime (LocalTime t)) d.

Definition getSeconds (d : Date) : number :=
  option_map (fun t => SecFromTime (LocalTime t)) d.

(** [formatDate(date, format = 'YYYY-MM-DD')] on a [Date] object. *)
Definition formatDate (date : Date) (format : option string) : string :=
  let format :=
    match format with Some f => f | None => "YYYY-MM-DD"%string end in
  let d := date in
  let year := getFullYear d in
  let month := padStart 2 "0" (ToString (num_add (getMonth d) (Some 1))) in
  let day := padStart 2 "0" (ToString (getDate d)) in
  let hours := padStart 2 "0" (ToString (getHours d)) in
  let minutes := padStart 2 "0" (ToString (getMinutes d)) in
  let seconds := padStart 2 "0" (ToString (getSeconds d)) in
  replaceFirst "ss" seconds
    (replaceFirst "mm" minutes
       (replaceFirst "HH" hours
          (replaceFirst "DD" day
             (replaceFirst "MM" month
                (replaceFirst "YYYY" (ToString year) format))))).

(** ** Sample documents *)

Definition sampleAlert (t : string) (f : Frequency) (days : list DayName)
  (act : bool) (max cur : Z) : Alert :=
  mkAlert t f days act None None 15 max cur.

(** * Facts about the calendar arithmetic *)

Lemma DaysInYear_cases y : DaysInYear y = 365 \/ DaysInYear y = 366.
Proof.
  unfold DaysInYear.
  repeat match goal with
         | |- context [if negb ?b then _ else _] => destruct b; cbn [negb]
         end; auto.
Qed.

Lemma DayFromYear_succ y : DayFromYear (y + 1) = DayFromYear y + DaysInYear y.
Proof.
  unfold DayFromYear, DaysInYear.
  repeat match goal with
         | |- context [if negb (?a =? ?b) then _ else _] =>
             destruct (Z.eqb_spec a b); cbn [negb]
         end; Z.div_mod_to_equations; lia.
Qed.

Lemma DayFromYear_mono y1 y2 : y1 <= y2 -> DayFromYear y1 <= DayFromYear y2.
Proof.
  unfold DayFromYear. intros H. Z.div_mod_to_equations. lia.
Qed.

(** [YearFromDay] is the year the specification of [YearFromTime] asks
    for. *)
Lemma YearFromDay_spec d :
  DayFromYear (YearFromDay d) <= d < DayFromYear (YearFromDay d + 1).
Proof.
  unfold YearFromDay.
  set (y := 1970 + 400 * d / 146097).
  assert (Hlo : DayFromYear (y - 1) <= d).
  { unfold DayFromYear, y. Z.div_mod_to_equations. lia. }
  assert (Hhi : d < DayFromYear (y + 2)).
  { unfold DayFromYear, y. Z.div_mod_to_equations. lia. }
  destruct (Z.leb_spec (DayFromYear (y + 1)) d).
  - replace (y + 1 + 1) with (y + 2) by lia. lia.
  - destruct (Z.leb_spec (DayFromYear y) d).
    + lia.
    + replace (y - 1 + 1) with y by lia. lia.
Qed.

Lemma YearFromDay_unique d y :
  DayFromYear y <= d < DayFromYear (y + 1) -> YearFromDay d = y.
Proof.
  intros [Hlo Hhi].
  pose proof (YearFromDay_spec d) as [Hlo' Hhi'].
  destruct (Z.lt_trichotomy (YearFromDay d) y) as [Hlt | [Heq | Hgt]]; auto.
  - pose proof (DayFromYear_mono (YearFromDay d + 1) y ltac:(lia)). lia.
  - pose proof (DayFromYear_mono (y + 1) (YearFromDay d) ltac:(lia)). lia.
Qed.

Lemma DayWithinYear_range t :
  0 <= DayWithinYear t < DaysInYear (YearFromTime t).
Proof.
  unfold DayWithinYear, YearFromTime.
  pose proof (YearFromDay_spec (Day t)) as H.
  rewrite DayFromYear_succ in H. lia.
Qed.

Lemma InLeapYear_cases t :
  (InLeapYear t = 0 /\ DaysInYear (YearFromTime t) = 365)
  \/ (InLeapYear t = 1 /\ DaysInYear (YearFromTime t) = 366).
Proof.
  unfold InLeapYear.
  destruct (DaysInYear_cases (YearFromTime t)) as [H | H]; rewrite H; cbn; auto.
Qed.

Lemma MonthFromTime_range t : 0 <= MonthFromTime t <= 11.
Proof.
  unfold MonthFromTime.
  repeat match goal with
         | |- context [if ?a <? ?b then _ else _] => destruct (a <? b)
         end; lia.
Qed.

(** The day of the month counts from the first day of the month. *)
Lemma DateFromTime_DayFromMonth t :
  DateFromTime t = DayWithinYear t - DayFromMonth (MonthFromTime t) (InLeapYear t) + 1.
Proof.
  unfold DateFromTime.
  pose proof (MonthFromTime_range t) as Hm.
  assert (H : MonthFromTime t = 0 \/ MonthFromTime t = 1 \/ MonthFromTime t = 2
              \/ MonthFromTime t = 3 \/ MonthFromTime t = 4 \/ MonthFromTime t = 5
              \/ MonthFromTime t = 6 \/ MonthFromTime t = 7 \/ MonthFromTime t = 8
              \/ MonthFromTime t = 9 \/ MonthFromTime t = 10
              \/ MonthFromTime t = 11) by lia.
  repeat destruct H as [H | H]; rewrite H; cbn [DayFromMonth]; lia.
Qed.

Lemma DateFromTime_range t : 1 <= DateFromTime t <= 31.
Proof.
  pose proof (DayWithinYear_range t) as Hd.
  destruct (InLeapYear_cases t) as [[Hl Hy] | [Hl Hy]];
    rewrite Hy in Hd; unfold DateFromTime, MonthFromTime; rewrite Hl;
    repeat match goal with
           | |- context [if ?a <? ?b then _ else _] =>
               destruct (Z.ltb_spec a b)
           end; lia.
Qed.

(** [MakeDay] on the calendar fields of a time value, with the day of the
    month moved by [k], is the day number moved by [k]. *)
Lemma MakeDay_fields t k :
  MakeDay (YearFromTime t) (MonthFromTime t) (DateFromTime t + k) = Day t + k.
Proof.
  pose proof (MonthFromTime_range t) as Hm.
  unfold MakeDay.
  rewrite (Z.div_small (MonthFromTime t) 12) by lia.
  rewrite (Z.mod_small (MonthFromTime t) 12) by lia.
  rewrite Z.add_0_r.
  fold (InLeapYear t).
  rewrite DateFromTime_DayFromMonth.
  unfold DayWithinYear. lia.
Qed.

(** The day [MakeDay] finds for the first of a month has that year, that
    month and day 1 as its calendar fields. *)
Lemma MakeDay_first_of_month y mn :
  0 <= mn <= 11 ->
  let t := MakeDate (MakeDay y mn 1) 0 in
  YearFromTime t = y /\ MonthFromTime t = mn /\ DateFromTime t = 1.
Proof.
  intros Hmn t.
  assert (Hday : Day t = MakeDay y mn 1).
  { unfold t, MakeDate, Day, msPerDay. Z.div_mod_to_equations. lia. }
  assert (Hmk : MakeDay y mn 1
                = DayFromYear y
                  + DayFromMonth mn (if DaysInYear y =? 366 then 1 else 0)).
  { unfold MakeDay.
    rewrite (Z.div_small mn 12), (Z.mod_small mn 12), Z.add_0_r by lia. lia. }
  assert (Hoff : 0 <= DayFromMonth mn (if DaysInYear y =? 366 then 1 else 0)
                 < DaysInYear y
                 /\ (mn = 11 \/ DayFromMonth mn (if DaysInYear y =? 366 then 1 else 0)
                                < DayFromMonth (mn + 1)
                                    (if DaysInYear y =? 366 then 1 else 0))).
  { assert (Hc : mn = 0 \/ mn = 1 \/ mn = 2 \/ mn = 3 \/ mn = 4 \/ mn = 5
                 \/ mn = 6 \/ mn = 7 \/ mn = 8 \/ mn = 9 \/ mn = 10 \/ mn = 11)
      by lia.
    destruct (DaysInYear_cases y) as [Hy | Hy]; rewrite Hy; cbn [Z.eqb Pos.eqb];
      repeat destruct Hc as [Hc | Hc]; subst mn; cbn; lia. }
  assert (Hyear : YearFromTime t = y).
  { unfold YearFromTime. apply YearFromDay_unique.
    rewrite DayFromYear_succ, Hday, Hmk. lia. }
  assert (Hdwy : DayWithinYear t
                 = DayFromMonth mn (if DaysInYear y =? 366 then 1 else 0)).
  { unfold DayWithinYear. rewrite Hyear, Hday, Hmk. lia. }
  assert (Hleap : InLeapYear t = if DaysInYear y =? 366 then 1 else 0).
  { unfold InLeapYear. now rewrite Hyear. }
  assert (Hmonth : MonthFromTime t = mn).
  { unfold MonthFromTime. rewrite Hdwy, Hleap.
    assert (Hc : mn = 0 \/ mn = 1 \/ mn = 2 \/ mn = 3 \/ mn = 4 \/ mn = 5
                 \/ mn = 6 \/ mn = 7 \/ mn = 8 \/ mn = 9 \/ mn = 10 \/ mn = 11)
      by lia.
    destruct (DaysInYear_cases y) as [Hy | Hy]; rewrite Hy; cbn [Z.eqb Pos.eqb];
      repeat destruct Hc as [Hc | Hc]; subst mn; reflexivity. }
  repeat split; auto.
  rewrite DateFromTime_DayFromMonth, Hmonth, Hdwy, Hleap. lia.
Qed.

(** The calendar fields of some known days: the epoch (a Thursday), the
    millisecond before it, and the leap day of 2024 (a Thursday). *)
Example calendar_fields_examples :
  (YearFromTime 0, MonthFromTime 0, DateFromTime 0, WeekDay 0)
  = (1970, 0, 1, 4)
  /\ (YearFromTime (-1), MonthFromTime (-1), DateFromTime (-1), WeekDay (-1))
     = (1969, 11, 31, 3)
  /\ (let t := MakeDate (MakeDay 2024 1 29) (MakeTime 23 59 0 0) in
      (YearFromTime t, MonthFromTime t, DateFromTime t, WeekDay t,
       HourFromTime t, MinFromTime t))
     = (2024, 1, 29, 4, 23, 59)
  /\ MakeDay 2023 1 29 = MakeDay 2023 2 1
  /\ MakeDay 2023 12 1 = MakeDay 2024 0 1
  /\ MakeDate (MakeDay 2024 0 1) (MakeTime 9 0 0 0) = 1704099600000.
Proof. vm_compute. repeat split. Qed.

(** ** Facts about the time within a day *)

Lemma MakeDate_Day_TimeWithinDay t : MakeDate (Day t) (TimeWithinDay t) = t.
Proof.
  unfold MakeDate, Day, TimeWithinDay, msPerDay. Z.div_mod_to_equations. lia.
Qed.

Lemma MakeTime_fields t :
  MakeTime (HourFromTime t) (MinFromTime t) (SecFromTime t) (msFromTime t)
  = TimeWithinDay t.
Proof.
  unfold MakeTime, HourFromTime, MinFromTime, SecFromTime, msFromTime,
    TimeWithinDay, msPerHour, msPerMinute, msPerSecond, msPerDay,
    HoursPerDay, MinutesPerHour, SecondsPerMinute.
  Z.div_mod_to_equations. lia.
Qed.

(** A day number and a time within the day determine the fields of the
    instant they make. *)
Lemma Day_MakeDate d tm : 0 <= tm < msPerDay -> Day (MakeDate d tm) = d.
Proof.
  unfold Day, MakeDate, msPerDay. intros H. Z.div_mod_to_equations. lia.
Qed.

Lemma TimeWithinDay_MakeDate d tm :
  0 <= tm < msPerDay -> TimeWithinDay (MakeDate d tm) = tm.
Proof.
  unfold TimeWithinDay, MakeDate, msPerDay. intros H.
  Z.div_mod_to_equations. lia.
Qed.

Lemma MakeTime_range h m :
  0 <= h <= 23 -> 0 <= m <= 59 -> 0 <= MakeTime h m 0 0 < msPerDay.
Proof.
  unfold MakeTime, msPerHour, msPerMinute, msPerSecond, msPerDay. lia.
Qed.

Lemma MakeTime_clock_fields h m :
  0 <= h <= 23 -> 0 <= m <= 59 ->
  let t := MakeTime h m 0 0 in
  HourFromTime t = h /\ MinFromTime t = m /\ SecFromTime t = 0 /\ msFromTime t = 0.
Proof.
  unfold MakeTime, HourFromTime, MinFromTime, SecFromTime, msFromTime,
    msPerHour, msPerMinute, msPerSecond, HoursPerDay, MinutesPerHour,
    SecondsPerMinute.
  intros Hh Hm. cbv zeta. repeat split; Z.div_mod_to_equations; lia.
Qed.

Lemma TimeClip_in_range t : Z.abs t <= maxTimeValue -> TimeClip t = Some t.
Proof.
  unfold TimeClip. intros H.
  destruct (Z.ltb_spec maxTimeValue (Z.abs t)); [lia | reflexivity].
Qed.

(** ** Facts about reading a [time] string *)

Example time_string_examples :
  map Number (split ":" "08:05") = [Some 8; Some 5]
  /\ map Number (split ":" "7:30") = [Some 7; Some 30]
  /\ (timePattern "08:05", timePattern "7:30", timePattern "00:00",
      timePattern "19:59", timePattern "23:59")
     = (true, true, true, true, true)
  /\ (timePattern "24:00", timePattern "08:60", timePattern "8:5",
      timePattern "0800", timePattern "008:00", timePattern EmptyString)
     = (false, false, false, false, false, false).
Proof. vm_compute. repeat split. Qed.

Lemma isDigit_range c : isDigit c = true -> 0 <= digitValue c <= 9.
Proof.
  unfold isDigit, digitValue. intros H.
  apply andb_prop in H. destruct H as [H1 H2].
  apply Z.leb_le in H1. apply Z.leb_le in H2. lia.
Qed.

Lemma isDigit_not_colon c : isDigit c = true -> Ascii.eqb c ":" = false.
Proof.
  intros H. destruct (Ascii.eqb_spec c ":") as [-> | _]; [ | reflexivity].
  discriminate H.
Qed.

Ltac bool_facts :=
  repeat match goal with
         | H : (_ && _) = true |- _ => apply andb_prop in H; destruct H
         | H : Ascii.eqb _ _ = true |- _ => apply Ascii.eqb_eq in H; subst
         | H : (_ <=? _) = true |- _ => apply Z.leb_le in H
         end.

(** The four shapes of a string that matches the pattern, as conditions
    on its characters. *)
Lemma timePattern_shape s :
  timePattern s = true ->
  (exists h0 m1 m0,
      s = String h0 (String ":" (String m1 (String m0 EmptyString)))
      /\ isDigit h0 = true /\ isDigit m1 = true /\ digitValue m1 <= 5
      /\ isDigit m0 = true)
  \/ (exists h1 h0 m1 m0,
         s = String h1 (String h0 (String ":" (String m1 (String m0 EmptyString))))
         /\ isDigit h1 = true /\ isDigit h0 = true
         /\ 10 * digitValue h1 + digitValue h0 <= 23
         /\ isDigit m1 = true /\ digitValue m1 <= 5 /\ isDigit m0 = true).
Proof.
  intros H.
  destruct s as [| a [| b [| c [| d [| e [| f s]]]]]]; try discriminate H.
  - left. cbn [timePattern] in H. bool_facts.
    exists a, c, d. repeat split; auto.
  - right. cbn [timePattern] in H. bool_facts.
    exists a, b, d, e.
    match goal with
    | Hor : (_ || _) = true |- _ => apply orb_prop in Hor; destruct Hor
    end; bool_facts.
    + pose proof (isDigit_range b ltac:(assumption)).
      repeat split; auto; lia.
    + repeat split; auto. change (digitValue "2") with 2. lia.
Qed.

(** A time that matches the pattern reads as an hour and a minute. *)
Lemma timePattern_reads s :
  timePattern s = true ->
  map Number (split ":" s) = [Some (hoursOf s); Some (minutesOf s)]
  /\ 0 <= hoursOf s <= 23 /\ 0 <= minutesOf s <= 59.
Proof.
  intros H.
  assert (Hparts : exists h m,
             map Number (split ":" s) = [Some h; Some m]
             /\ 0 <= h <= 23 /\ 0 <= m <= 59).
  { destruct (timePattern_shape s H)
      as [(h0 & m1 & m0 & -> & Hh0 & Hm1 & Hm1' & Hm0)
         | (h1 & h0 & m1 & m0 & -> & Hh1 & Hh0 & Hh & Hm1 & Hm1' & Hm0)].
    - pose proof (isDigit_range _ Hh0). pose proof (isDigit_range _ Hm1).
      pose proof (isDigit_range _ Hm0).
      exists (digitValue h0), (10 * digitValue m1 + digitValue m0).
      cbn [split]. change (Ascii.eqb ":" ":") with true. cbv iota.
      rewrite !isDigit_not_colon by assumption.
      cbn [map Number digitsValue]. rewrite Hh0, Hm1, Hm0.
      repeat split; lia.
    - pose proof (isDigit_range _ Hh1). pose proof (isDigit_range _ Hh0).
      pose proof (isDigit_range _ Hm1). pose proof (isDigit_range _ Hm0).
      exists (10 * digitValue h1 + digitValue h0),
        (10 * digitValue m1 + digitValue m0).
      cbn [split]. change (Ascii.eqb ":" ":") with true. cbv iota.
      rewrite !isDigit_not_colon by assumption.
      cbn [map Number digitsValue]. rewrite Hh1, Hh0, Hm1, Hm0.
      repeat split; lia. }
  destruct Hparts as (h & m & Hp & Hh & Hm).
  unfold hoursOf, minutesOf. rewrite Hp. cbn [element nth]. auto.
Qed.

(** ** Facts about the [Date] methods *)

Lemma LocalTime_UTC t : LocalTime (UTC t) = t.
Proof. unfold LocalTime, UTC. lia. Qed.

Lemma UTC_MakeDate_add d tm k :
  UTC (MakeDate (d + k) tm) = UTC (MakeDate d tm) + k * msPerDay.
Proof. unfold UTC, MakeDate. lia. Qed.

(** [todayAt now s], moved by [k] days, lies [k] days after the local
    calendar day of [now], at the hour and minute of [s] sharp. *)
Lemma todayAt_fields now s k :
  timePattern s = true ->
  let t := LocalTime (todayAt now s + k * msPerDay) in
  Day t = Day (LocalTime now) + k
  /\ HourFromTime t = hoursOf s /\ MinFromTime t = minutesOf s
  /\ SecFromTime t = 0 /\ msFromTime t = 0.
Proof.
  intros Hs. destruct (timePattern_reads s Hs) as (_ & Hh & Hm).
  unfold todayAt. rewrite <- UTC_MakeDate_add, LocalTime_UTC. cbv zeta.
  split; [apply Day_MakeDate, MakeTime_range; assumption | ].
  unfold MakeDate, MakeTime, HourFromTime, MinFromTime, SecFromTime,
    msFromTime, msPerHour, msPerMinute, msPerSecond, msPerDay, HoursPerDay,
    MinutesPerHour, SecondsPerMinute.
  repeat split; Z.div_mod_to_equations; lia.
Qed.

(** It is within a day of [now], and at least a minute before the end of
    the day of [now]. *)
Lemma todayAt_near now s :
  timePattern s = true ->
  now - msPerDay < todayAt now s < now + msPerDay
  /\ todayAt now s + msPerMinute <= UTC (MakeDate (Day (LocalTime now) + 1) 0).
Proof.
  intros Hs. destruct (timePattern_reads s Hs) as (_ & Hh & Hm).
  unfold todayAt, UTC, LocalTime, MakeDate, Day, MakeTime, msPerHour,
    msPerMinute, msPerSecond, msPerDay.
  split; Z.div_mod_to_equations; lia.
Qed.

(** The instant [todayAt] only depends on the local day of [now]. *)
Lemma todayAt_same_day now now' s :
  Day (LocalTime now') = Day (LocalTime now) -> todayAt now' s = todayAt now s.
Proof. unfold todayAt. now intros ->. Qed.

Lemma todayAt_next_day now now' s :
  Day (LocalTime now') = Day (LocalTime now) + 1 ->
  todayAt now' s = todayAt now s + msPerDay.
Proof.
  unfold todayAt. intros ->. rewrite UTC_MakeDate_add. lia.
Qed.

Lemma setHours_todayAt clock s :
  timePattern s = true -> clockReading clock ->
  setHours (newDate clock) (Some (hoursOf s)) (Some (minutesOf s))
           (Some 0) (Some 0)
  = Some (todayAt clock s).
Proof.
  intros Hs Hc. pose proof (todayAt_near clock s Hs) as [Hn _].
  unfold setHours, newDate. fold (todayAt clock s).
  apply TimeClip_in_range.
  unfold clockReading, maxTimeValue, msPerDay in *. lia.
Qed.

(** [d.setDate(d.getDate() + k)] moves [d] by [k] days. *)
Lemma setDate_getDate_add t k :
  Z.abs (t + k * msPerDay) <= maxTimeValue ->
  setDate (Some t) (num_add (getDate (Some t)) (Some k))
  = Some (t + k * msPerDay).
Proof.
  intros Hr. unfold setDate, getDate, num_add.
  rewrite MakeDay_fields, UTC_MakeDate_add, MakeDate_Day_TimeWithinDay.
  unfold UTC, LocalTime. replace (t + LocalTZA - LocalTZA) with t by lia.
  now apply TimeClip_in_range.
Qed.

(** [d.setMinutes(d.getMinutes() + k)] moves [d] by [k] minutes. *)
Lemma setMinutes_getMinutes_add t k :
  Z.abs (t + k * msPerMinute) <= maxTimeValue ->
  setMinutes (Some t) (num_add (getMinutes (Some t)) (Some k))
  = Some (t + k * msPerMinute).
Proof.
  intros Hr. unfold setMinutes, getMinutes, num_add.
  assert (He : UTC (MakeDate (Day (LocalTime t))
                      (MakeTime (HourFromTime (LocalTime t))
                                (MinFromTime (LocalTime t) + k)
                                (SecFromTime (LocalTime t))
                                (msFromTime (LocalTime t))))
               = t + k * msPerMinute).
  { pose proof (MakeTime_fields (LocalTime t)) as Hf.
    pose proof (MakeDate_Day_TimeWithinDay (LocalTime t)) as Hd.
    assert (Hl : LocalTime t = t + LocalTZA) by reflexivity.
    revert Hf Hd Hl. generalize (LocalTime t). intros lt Hf Hd Hl.
    unfold MakeTime, MakeDate, UTC, msPerHour, msPerMinute, msPerSecond,
      msPerDay in *.
    lia. }
  rewrite He. now apply TimeClip_in_range.
Qed.

(** ** What the methods compute *)

Lemma calculateNextTrigger_eq clock0 clock1 this :
  timePattern (time this) = true -> clockReading clock1 ->
  calculateNextTrigger clock0 clock1 this
  = (set_nextTrigger (Some (Some (triggerFor clock0 clock1 (time this)))) this,
     Normal tt).
Proof.
  intros Hs Hc.
  destruct (timePattern_reads _ Hs) as (Hp & _ & _).
  pose proof (todayAt_near clock1 _ Hs) as [Hn _].
  unfold calculateNextTrigger, bind, read, assign, save, ret.
  rewrite Hp. cbn [element nth].
  rewrite setHours_todayAt by assumption.
  unfold triggerFor, num_le, newDate.
  destruct (Z.leb_spec (todayAt clock1 (time this)) clock0); [ | reflexivity].
  pose proof (setDate_getDate_add (todayAt clock1 (time this)) 1) as Hd.
  rewrite Z.mul_1_l in Hd. rewrite Hd; [reflexivity | ].
  unfold clockReading, maxTimeValue, msPerDay in *. lia.
Qed.

(** When the second reading is not before the first, the trigger is
    after the first reading. *)
Lemma triggerFor_after clock0 clock1 s :
  timePattern s = true -> clock0 <= clock1 ->
  clock0 < triggerFor clock0 clock1 s.
Proof.
  intros Hs Hle. destruct (timePattern_reads s Hs) as (_ & Hh & Hm).
  unfold triggerFor.
  destruct (Z.leb_spec (todayAt clock1 s) clock0) as [Hpast | Hfut]; [ | lia].
  clear Hpast.
  unfold todayAt, UTC, LocalTime, MakeDate, Day, MakeTime, msPerHour,
    msPerMinute, msPerSecond, msPerDay.
  Z.div_mod_to_equations. lia.
Qed.

(** A second reading at most a minute after the first gives the trigger
    of the first reading alone. *)
Lemma triggerFor_second_reading clock0 clock1 s :
  timePattern s = true -> clock0 <= clock1 <= clock0 + msPerMinute ->
  triggerFor clock0 clock1 s = triggerFor clock0 clock0 s.
Proof.
  intros Hs Hle.
  pose proof (todayAt_near clock0 s Hs) as [Hnear Hend].
  assert (Hday : Day (LocalTime clock1) = Day (LocalTime clock0)
                 \/ (Day (LocalTime clock1) = Day (LocalTime clock0) + 1
                     /\ UTC (MakeDate (Day (LocalTime clock0) + 1) 0) <= clock1)).
  { unfold LocalTime, UTC, MakeDate, Day, msPerDay, msPerMinute in *.
    Z.div_mod_to_equations. lia. }
  unfold triggerFor.
  destruct Hday as [Hsame | [Hnext Hmid]].
  - now rewrite (todayAt_same_day clock0 clock1 s Hsame).
  - rewrite (todayAt_next_day clock0 clock1 s Hnext).
    destruct (Z.leb_spec (todayAt clock0 s + msPerDay) clock0);
      destruct (Z.leb_spec (todayAt clock0 s) clock0);
      unfold msPerDay, msPerMinute in *; lia.
Qed.

(** [calculateNextTrigger] always returns, and writes [nextTrigger] only. *)
Lemma calculateNextTrigger_frame clock0 clock1 this :
  exists d,
    calculateNextTrigger clock0 clock1 this
    = (set_nextTrigger (Some d) this, Normal tt).
Proof.
  unfold calculateNextTrigger, bind, read, assign, save, ret.
  eexists. reflexivity.
Qed.

Lemma snooze_throws clock this :
  maxSnoozes this <= currentSnoozes this ->
  snooze clock this = (this, Throw SnoozeLimitExceededError).
Proof.
  intros H. unfold snooze, bind, read, throw. rewrite Z.geb_leb.
  destruct (Z.leb_spec (maxSnoozes this) (currentSnoozes this)); [reflexivity | lia].
Qed.

Lemma snooze_returns clock this :
  currentSnoozes this < maxSnoozes this ->
  exists d,
    snooze clock this
    = (set_nextTrigger (Some d)
         (set_currentSnoozes (currentSnoozes this + 1) this),
       Normal tt).
Proof.
  intros H. unfold snooze, bind, read, assign, save, ret. rewrite Z.geb_leb.
  destruct (Z.leb_spec (maxSnoozes this) (currentSnoozes this)); [lia | ].
  eexists. reflexivity.
Qed.

(** The date a successful [snooze] stores. *)
Lemma snooze_until clock this :
  currentSnoozes this < maxSnoozes this ->
  Z.abs (clock + snoozeTime this * msPerMinute) <= maxTimeValue ->
  snooze clock this
  = (set_nextTrigger (Some (Some (clock + snoozeTime this * msPerMinute)))
       (set_currentSnoozes (currentSnoozes this + 1) this),
     Normal tt).
Proof.
  intros H Hr. unfold snooze, bind, read, assign, save, ret.
  rewrite Z.geb_leb.
  destruct (Z.leb_spec (maxSnoozes this) (currentSnoozes this)); [lia | ].
  cbn [snoozeTime set_currentSnoozes]. unfold newDate.
  now rewrite setMinutes_getMinutes_add.
Qed.

Lemma snoozes_cons clock clocks this :
  currentSnoozes this < maxSnoozes this ->
  snoozes (clock :: clocks) this = snoozes clocks (after (snooze clock) this).
Proof.
  intros H. destruct (snooze_returns clock this H) as [d Hd].
  cbn [snoozes]. unfold bind, after. now rewrite Hd.
Qed.

(** As many calls of [snooze] as the counter has room for all return. *)
Lemma snoozes_within_limit clocks : forall this,
  currentSnoozes this + Z.of_nat (List.length clocks) <= maxSnoozes this ->
  completion (snoozes clocks) this = Normal tt
  /\ currentSnoozes (after (snoozes clocks) this)
     = currentSnoozes this + Z.of_nat (List.length clocks)
  /\ maxSnoozes (after (snoozes clocks) this) = maxSnoozes this
  /\ isActive (after (snoozes clocks) this) = isActive this.
Proof.
  induction clocks as [| c cs IH]; intros this Hroom.
  - cbn. repeat split; lia.
  - cbn [List.length] in Hroom. rewrite Nat2Z.inj_succ in Hroom.
    assert (Hlt : currentSnoozes this < maxSnoozes this) by lia.
    unfold completion, after in *. rewrite (snoozes_cons c cs this Hlt).
    destruct (snooze_returns c this Hlt) as [d Hd].
    unfold after. rewrite Hd. cbn [fst].
    destruct (IH (set_nextTrigger (Some d)
                    (set_currentSnoozes (currentSnoozes this + 1) this)))
      as (Hc & Hn & Hm & Ha).
    { cbn. lia. }
    cbn [List.length]. rewrite Nat2Z.inj_succ.
    rewrite Hc, Hn, Hm, Ha. cbn. repeat split; lia.
Qed.

(** * The claims *)

(** C5.  [snooze] throws its limit error exactly when [currentSnoozes >=
    maxSnoozes], whatever the state of the alert, and then leaves the
    document as it was.  From a fresh active alert ([currentSnoozes = 0])
    the first [maxSnoozes] calls return, the status staying [active]
    before the last of them and being [overdue] after it, and one more
    call throws the limit error and changes nothing. *)
Theorem snooze_limit (this : Alert) :
  (forall clock,
      completion (snooze clock) this = Throw SnoozeLimitExceededError
      <-> currentSnoozes this >= maxSnoozes this)
  /\ (forall clock,
        returns (completion (snooze clock) this) = false ->
        after (snooze clock) this = this)
  /\ (forall clocks,
        currentSnoozes this = 0 -> isActive this = true ->
        Z.of_nat (List.length clocks) = maxSnoozes this ->
        completion (snoozes clocks) this = Normal tt
        /\ (forall k, (k < List.length clocks)%nat ->
                      status (after (snoozes (firstn k clocks)) this) = active)
        /\ status (after (snoozes clocks) this) = overdue
        /\ forall clock,
             completion (snooze clock) (after (snoozes clocks) this)
             = Throw SnoozeLimitExceededError
             /\ after (snooze clock) (after (snoozes clocks) this)
                = after (snoozes clocks) this).
Proof.
  split; [ | split].
  - intros clock. unfold completion.
    destruct (Z.le_gt_cases (maxSnoozes this) (currentSnoozes this)) as [H | H].
    + rewrite snooze_throws by assumption. cbn. split; [lia | reflexivity].
    + destruct (snooze_returns clock this H) as [d ->]. cbn.
      split; [discriminate | lia].
  - intros clock. unfold completion, after.
    destruct (Z.le_gt_cases (maxSnoozes this) (currentSnoozes this)) as [H | H].
    + now rewrite snooze_throws by assumption.
    + destruct (snooze_returns clock this H) as [d ->]. cbn. discriminate.
  - intros clocks Hzero Hact Hlen.
    destruct (snoozes_within_limit clocks this ltac:(lia)) as (Hc & Hn & Hm & Ha).
    split; [exact Hc | ]. split; [ | split].
    + intros k Hk.
      assert (Hlenk : List.length (firstn k clocks) = k)
        by (apply firstn_length_le; lia).
      destruct (snoozes_within_limit (firstn k clocks) this ltac:(lia))
        as (_ & Hn' & Hm' & Ha').
      unfold status. rewrite Z.geb_leb, Ha', Hact, Hm', Hn', Hlenk. cbn [negb].
      destruct (Z.leb_spec (maxSnoozes this) (currentSnoozes this + Z.of_nat k));
        [lia | reflexivity].
    + unfold status. rewrite Z.geb_leb, Ha, Hact, Hm, Hn. cbn [negb].
      destruct (Z.leb_spec (maxSnoozes this)
                  (currentSnoozes this + Z.of_nat (List.length clocks)));
        [reflexivity | lia].
    + intros clock. unfold completion, after.
      rewrite snooze_throws; [split; reflexivity | ].
      fold (after (snoozes clocks) this). lia.
Qed.

(** C6.  A [snooze] call that returns adds exactly 1 to [currentSnoozes]
    and sets [nextTrigger] to its own clock reading plus [snoozeTime]
    minutes.  With [maxSnoozes = 3] and [snoozeTime = 15], three calls in
    a row on a fresh active alert leave [currentSnoozes = 3], status
    [overdue] and [nextTrigger] 15 minutes after the third call; when each
    call is made as the previous snooze runs out, that is 45 minutes
    after the first call. *)
Theorem snooze_advances :
  (forall this clock,
      snoozeTimeValid this -> clockReading clock ->
      completion (snooze clock) this = Normal tt ->
      currentSnoozes (after (snooze clock) this) = currentSnoozes this + 1
      /\ nextTrigger (after (snooze clock) this)
         = Some (Some (clock + snoozeTime this * msPerMinute)))
  /\ (forall this c1 c2 c3,
        maxSnoozes this = 3 -> snoozeTime this = 15 ->
        currentSnoozes this = 0 -> isActive this = true ->
        clockReading c1 -> clockReading c2 -> clockReading c3 ->
        let this' := after (snoozes [c1; c2; c3]) this in
        completion (snoozes [c1; c2; c3]) this = Normal tt
        /\ currentSnoozes this' = 3
        /\ status this' = overdue
        /\ nextTrigger this' = Some (Some (c3 + 15 * msPerMinute))
        /\ (c2 = c1 + 15 * msPerMinute -> c3 = c2 + 15 * msPerMinute ->
            nextTrigger this' = Some (Some (c1 + 45 * msPerMinute)))).
Proof.
  split.
  - intros this clock Hst Hc Hret.
    assert (Hlt : currentSnoozes this < maxSnoozes this).
    { destruct (Z.lt_ge_cases (currentSnoozes this) (maxSnoozes this)) as [H | H];
        [exact H | ].
      unfold completion in Hret. rewrite snooze_throws in Hret by lia.
      discriminate Hret. }
    unfold after. rewrite snooze_until; [cbn; auto | exact Hlt | ].
    unfold snoozeTimeValid, clockReading, maxTimeValue, msPerDay, msPerMinute in *.
    lia.
  - intros this c1 c2 c3 Hmax Hmin Hzero Hact Hc1 Hc2 Hc3 this'.
    assert (Hrange : forall c, clockReading c ->
                               Z.abs (c + 15 * msPerMinute) <= maxTimeValue).
    { intros c. unfold clockReading, maxTimeValue, msPerDay, msPerMinute. lia. }
    assert (Hrun : snoozes [c1; c2; c3] this
                   = (set_nextTrigger (Some (Some (c3 + 15 * msPerMinute)))
                        (set_currentSnoozes 3 this), Normal tt)).
    { cbn [snoozes].
      do 3 (unfold bind at 1;
            rewrite snooze_until;
            [ | cbn [currentSnoozes maxSnoozes set_nextTrigger
                       set_currentSnoozes]; lia
              | cbn [snoozeTime set_nextTrigger set_currentSnoozes];
                rewrite Hmin; auto ]).
      unfold ret, set_nextTrigger, set_currentSnoozes.
      cbn [time frequency daysOfWeek isActive lastTriggered nextTrigger
             snoozeTime maxSnoozes currentSnoozes].
      rewrite Hmin, Hzero. reflexivity. }
    unfold this', completion, after. rewrite Hrun. cbn.
    unfold status. cbn. rewrite Hact, Hmax. cbn.
    repeat split. intros -> ->. do 2 f_equal. unfold msPerMinute. lia.
Qed.

(** ** Wall-clock readings *)

Lemma todayAt_localInstant y mo d h mi s :
  0 <= MakeTime h mi 0 0 < msPerDay ->
  todayAt (localInstant y mo d h mi) s
  = localInstant y mo d (hoursOf s) (minutesOf s).
Proof.
  intros H. unfold todayAt, localInstant.
  now rewrite LocalTime_UTC, Day_MakeDate.
Qed.

Lemma clockReading_localInstant y mo d h mi :
  Z.abs (MakeDate (MakeDay y mo d) (MakeTime h mi 0 0))
  <= maxTimeValue - 3 * msPerDay ->
  clockReading (localInstant y mo d h mi).
Proof.
  unfold clockReading, localInstant, UTC.
  generalize (MakeDate (MakeDay y mo d) (MakeTime h mi 0 0)).
  unfold maxTimeValue, msPerDay in *. lia.
Qed.

(** The trigger of one reading: today at the time of day when that is
    ahead, the day after otherwise. *)
Lemma triggerFor_one_reading clock s :
  triggerFor clock clock s
  = if clock <? todayAt clock s then todayAt clock s
    else todayAt clock s + msPerDay.
Proof.
  unfold triggerFor.
  destruct (Z.leb_spec (todayAt clock s) clock);
    destruct (Z.ltb_spec clock (todayAt clock s)); lia.
Qed.

(** What [calculateNextTrigger] stores when its two readings are at most
    a minute apart, whatever the frequency and the days of the week. *)
Lemma calculateNextTrigger_stores this clock0 clock1 :
  timePattern (time this) = true ->
  clockReading clock1 -> clock0 <= clock1 <= clock0 + msPerMinute ->
  completion (calculateNextTrigger clock0 clock1) this = Normal tt
  /\ nextTrigger (after (calculateNextTrigger clock0 clock1) this)
     = Some (Some (if clock0 <? todayAt clock0 (time this)
                   then todayAt clock0 (time this)
                   else todayAt clock0 (time this) + msPerDay)).
Proof.
  intros Hs Hc Hle. unfold completion, after.
  rewrite calculateNextTrigger_eq by assumption. cbn.
  now rewrite triggerFor_second_reading, triggerFor_one_reading.
Qed.

(** With readings that do not go backwards, the stored trigger is after
    the first reading. *)
Lemma calculateNextTrigger_ahead this clock0 clock1 :
  timePattern (time this) = true ->
  clockReading clock1 -> clock0 <= clock1 ->
  completion (calculateNextTrigger clock0 clock1) this = Normal tt
  /\ nextTrigger (after (calculateNextTrigger clock0 clock1) this)
     = Some (Some (triggerFor clock0 clock1 (time this)))
  /\ clock0 < triggerFor clock0 clock1 (time this).
Proof.
  intros Hs Hc Hle. unfold completion, after.
  rewrite calculateNextTrigger_eq by assumption. cbn.
  repeat split. now apply triggerFor_after.
Qed.

(** The sample alert at a wall-clock reading of hour [h] on a day. *)
Lemma sample_next_trigger f days y mo d h :
  0 <= h <= 23 ->
  Z.abs (MakeDate (MakeDay y mo d) (MakeTime h 0 0 0))
  <= maxTimeValue - 3 * msPerDay ->
  let now := localInstant y mo d h 0 in
  nextTrigger (after (calculateNextTrigger now now)
                     (sampleAlert "08:00" f days true 3 0))
  = Some (Some (if h <? 8 then localInstant y mo d 8 0
                else localInstant y mo (d + 1) 8 0)).
Proof.
  intros Hh Hr now.
  destruct (calculateNextTrigger_stores
              (sampleAlert "08:00" f days true 3 0) now now) as [_ ->].
  - reflexivity.
  - now apply clockReading_localInstant.
  - unfold msPerMinute. lia.
  - unfold now. cbn [sampleAlert time].
    rewrite todayAt_localInstant by (apply MakeTime_range; lia).
    change (hoursOf "08:00") with 8. change (minutesOf "08:00") with 0.
    unfold localInstant, UTC, MakeDate, MakeDay, MakeTime, msPerHour,
      msPerMinute, msPerSecond, msPerDay.
    do 2 f_equal.
    destruct (Z.ltb_spec h 8);
      match goal with
      | |- context [if ?a <? ?b then _ else _] => destruct (Z.ltb_spec a b)
      end; lia.
Qed.

(** C1.  For an alert whose [time] matches the schema's pattern and
    clock readings that do not go backwards, [calculateNextTrigger]
    returns and stores a trigger strictly after its reading of [now]. *)
Theorem next_trigger_in_future this clock0 clock1 :
  timePattern (time this) = true ->
  clockReading clock1 -> clock0 <= clock1 ->
  completion (calculateNextTrigger clock0 clock1) this = Normal tt
  /\ exists t,
      nextTrigger (after (calculateNextTrigger clock0 clock1) this)
      = Some (Some t)
      /\ clock0 < t.
Proof.
  intros Hs Hc Hle. split.
  - apply (calculateNextTrigger_ahead this clock0 clock1 Hs Hc Hle).
  - exists (triggerFor clock0 clock1 (time this)).
    apply (calculateNextTrigger_ahead this clock0 clock1 Hs Hc Hle).
Qed.

(** C2.  For a daily alert, [calculateNextTrigger] stores the instant on
    the calendar date of [now] at the alert's time of day when that is
    strictly after [now], and otherwise that instant plus one day, which
    lies on the next calendar day at the same hour and minute.  The
    08:00 alert computed at 09:00 on 1 January 2024 gets 08:00 on
    2 January, and computed at 07:00 gets 08:00 on 1 January. *)
Theorem daily_next_trigger :
  (forall this clock0 clock1,
      frequency this = daily -> timePattern (time this) = true ->
      clockReading clock1 -> clock0 <= clock1 <= clock0 + msPerMinute ->
      let today := todayAt clock0 (time this) in
      nextTrigger (after (calculateNextTrigger clock0 clock1) this)
      = Some (Some (if clock0 <? today then today else today + msPerDay))
      /\ Day (LocalTime today) = Day (LocalTime clock0)
      /\ HourFromTime (LocalTime today) = hoursOf (time this)
      /\ MinFromTime (LocalTime today) = minutesOf (time this)
      /\ Day (LocalTime (today + msPerDay)) = Day (LocalTime clock0) + 1
      /\ HourFromTime (LocalTime (today + msPerDay)) = hoursOf (time this)
      /\ MinFromTime (LocalTime (today + msPerDay)) = minutesOf (time this))
  /\ (let now := localInstant 2024 0 1 9 0 in
      nextTrigger (after (calculateNextTrigger now now)
                         (sampleAlert "08:00" daily [] true 3 0))
      = Some (Some (localInstant 2024 0 2 8 0)))
  /\ (let now := localInstant 2024 0 1 7 0 in
      nextTrigger (after (calculateNextTrigger now now)
                         (sampleAlert "08:00" daily [] true 3 0))
      = Some (Some (localInstant 2024 0 1 8 0))).
Proof.
  split; [ | split].
  - intros this clock0 clock1 _ Hs Hc Hle today.
    destruct (calculateNextTrigger_stores this clock0 clock1 Hs Hc Hle)
      as [_ Hn].
    pose proof (todayAt_fields clock0 (time this) 0 Hs) as H0.
    pose proof (todayAt_fields clock0 (time this) 1 Hs) as H1.
    cbv zeta in H0, H1.
    rewrite Z.mul_0_l, !Z.add_0_r in H0. rewrite Z.mul_1_l in H1.
    fold today in H0, H1, Hn. tauto.
  - apply (sample_next_trigger daily [] 2024 0 1 9); [lia | vm_compute; discriminate].
  - apply (sample_next_trigger daily [] 2024 0 1 7); [lia | vm_compute; discriminate].
Qed.

(** C3, as the code has it.  For a monthly alert whose time of day today
    is not after [now], [calculateNextTrigger] stores that instant plus
    one day, on the next calendar day, as for every frequency: the month
    only changes when [now] is on the last day of its month.  The 08:00
    alert computed at 09:00 on 31 March 2024 gets 08:00 on 1 April. *)
Theorem monthly_next_trigger :
  (forall this clock0 clock1,
      frequency this = monthly -> timePattern (time this) = true ->
      clockReading clock1 -> clock0 <= clock1 <= clock0 + msPerMinute ->
      todayAt clock0 (time this) <= clock0 ->
      let next := todayAt clock0 (time this) + msPerDay in
      nextTrigger (after (calculateNextTrigger clock0 clock1) this)
      = Some (Some next)
      /\ Day (LocalTime next) = Day (LocalTime clock0) + 1
      /\ HourFromTime (LocalTime next) = hoursOf (time this)
      /\ MinFromTime (LocalTime next) = minutesOf (time this))
  /\ (let now := localInstant 2024 2 31 9 0 in
      nextTrigger (after (calculateNextTrigger now now)
                         (sampleAlert "08:00" monthly [] true 3 0))
      = Some (Some (localInstant 2024 3 1 8 0))).
Proof.
  split.
  - intros this clock0 clock1 _ Hs Hc Hle Hpast next.
    destruct (calculateNextTrigger_stores this clock0 clock1 Hs Hc Hle)
      as [_ Hn].
    pose proof (todayAt_fields clock0 (time this) 1 Hs) as H1.
    cbv zeta in H1. rewrite Z.mul_1_l in H1. fold next in H1.
    destruct (Z.ltb_spec clock0 (todayAt clock0 (time this))); [lia | ].
    fold next in Hn. tauto.
  - cbv zeta.
    rewrite (sample_next_trigger monthly [] 2024 2 31 9);
      [reflexivity | lia | vm_compute; discriminate].
Qed.

(** C4, as the code has it.  For a custom alert, whatever its
    [daysOfWeek], empty or not, [calculateNextTrigger] returns without an
    error and stores the instant on the calendar date of [now] at the
    alert's time of day when that is strictly after [now], and otherwise
    that instant plus one day. *)
Theorem custom_next_trigger this clock0 clock1 :
  frequency this = custom -> timePattern (time this) = true ->
  clockReading clock1 -> clock0 <= clock1 <= clock0 + msPerMinute ->
  let today := todayAt clock0 (time this) in
  completion (calculateNextTrigger clock0 clock1) this = Normal tt
  /\ nextTrigger (after (calculateNextTrigger clock0 clock1) this)
     = Some (Some (if clock0 <? today then today else today + msPerDay)).
Proof.
  intros _ Hs Hc Hle today.
  exact (calculateNextTrigger_stores this clock0 clock1 Hs Hc Hle).
Qed.

(** [markTriggered] always returns; it writes [lastTriggered],
    [currentSnoozes] and [nextTrigger] only. *)
Lemma markTriggered_frame clock0 clock1 clock2 this :
  markTriggered clock0 clock1 clock2 this
  = (set_nextTrigger
       (nextTrigger (after (calculateNextTrigger clock1 clock2) this))
       (set_currentSnoozes 0 (set_lastTriggered (Some (Some clock0)) this)),
     Normal tt).
Proof.
  unfold markTriggered, calculateNextTrigger, bind, read, assign, save, ret,
    after, newDate.
  reflexivity.
Qed.

(** C7, as the code has it.  On an alert whose status is [active] or
    [overdue], [markTriggered] returns, sets [lastTriggered] to its clock
    reading, resets [currentSnoozes] to 0 and stores the trigger
    [calculateNextTrigger] computes, which is after its reading of [now].
    The status it leaves is [active] when [maxSnoozes] is at least 1;
    with [maxSnoozes = 0] it is [overdue]. *)
Theorem fire_rearms this clock0 clock1 clock2 :
  status this = active \/ status this = overdue ->
  timePattern (time this) = true ->
  clockReading clock2 -> clock1 <= clock2 ->
  let this' := after (markTriggered clock0 clock1 clock2) this in
  completion (markTriggered clock0 clock1 clock2) this = Normal tt
  /\ lastTriggered this' = Some (Some clock0)
  /\ currentSnoozes this' = 0
  /\ nextTrigger this'
     = nextTrigger (after (calculateNextTrigger clock1 clock2) this)
  /\ (exists t, nextTrigger this' = Some (Some t) /\ clock1 < t)
  /\ (1 <= maxSnoozes this -> status this' = active)
  /\ (maxSnoozes this <= 0 -> status this' = overdue).
Proof.
  intros Hst Hs Hc Hle this'.
  assert (Hact : isActive this = true).
  { unfold status in Hst. destruct (isActive this); [reflexivity | ].
    cbn in Hst. destruct Hst; discriminate. }
  destruct (calculateNextTrigger_ahead this clock1 clock2 Hs Hc Hle)
    as (_ & Ht & Hlt).
  unfold this', completion, after. rewrite markTriggered_frame.
  cbn [fst snd set_nextTrigger set_currentSnoozes set_lastTriggered
         lastTriggered currentSnoozes nextTrigger].
  repeat split.
  - exists (triggerFor clock1 clock2 (time this)).
    split; [exact Ht | exact Hlt].
  - intros Hmax. unfold status. rewrite Z.geb_leb. cbn. rewrite Hact. cbn.
    destruct (Z.leb_spec (maxSnoozes this) 0); [lia | reflexivity].
  - intros Hmax. unfold status. rewrite Z.geb_leb. cbn. rewrite Hact. cbn.
    destruct (Z.leb_spec (maxSnoozes this) 0); [reflexivity | lia].
Qed.

Lemma perform_preserves op this :
  snoozesBounded this ->
  snoozesBounded (after (perform op) this)
  /\ maxSnoozes (after (perform op) this) = maxSnoozes this.
Proof.
  unfold snoozesBounded. intros Hb. unfold after.
  destruct op as [c | c0 c1 c2 | c0 c1]; cbn [perform].
  - destruct (Z.le_gt_cases (maxSnoozes this) (currentSnoozes this)) as [H | H].
    + rewrite snooze_throws by assumption. cbn. lia.
    + destruct (snooze_returns c this H) as [d ->]. cbn. lia.
  - rewrite markTriggered_frame. cbn. lia.
  - destruct (calculateNextTrigger_frame c0 c1 this) as [d ->]. cbn. lia.
Qed.

Lemma performAll_preserves ops : forall this,
  snoozesBounded this ->
  snoozesBounded (performAll ops this)
  /\ maxSnoozes (performAll ops this) = maxSnoozes this.
Proof.
  induction ops as [| op ops IH]; intros this Hb.
  - cbn. auto.
  - destruct (perform_preserves op this Hb) as [Hb' Hm'].
    destruct (IH _ Hb') as [Hb'' Hm''].
    unfold performAll in *. cbn [fold_left]. split; [exact Hb'' | congruence].
Qed.

(** C9.  From an alert created with [currentSnoozes = 0] and
    [maxSnoozes >= 0], every history of [snooze], [markTriggered] and
    [calculateNextTrigger] calls leaves [0 <= currentSnoozes <=
    maxSnoozes], with [maxSnoozes] as created; and [markTriggered] at any
    point of the history returns with [currentSnoozes = 0]. *)
Theorem snoozes_bounded_invariant this ops :
  currentSnoozes this = 0 -> 0 <= maxSnoozes this ->
  snoozesBounded (performAll ops this)
  /\ maxSnoozes (performAll ops this) = maxSnoozes this
  /\ forall clock0 clock1 clock2,
      completion (markTriggered clock0 clock1 clock2) (performAll ops this)
      = Normal tt
      /\ currentSnoozes
           (after (markTriggered clock0 clock1 clock2) (performAll ops this))
         = 0.
Proof.
  intros Hzero Hmax.
  destruct (performAll_preserves ops this) as [Hb Hm].
  { unfold snoozesBounded. lia. }
  split; [exact Hb | ]. split; [exact Hm | ].
  intros clock0 clock1 clock2. unfold completion, after.
  rewrite markTriggered_frame. split; reflexivity.
Qed.

(** C10, as the code has it.  [calculateNextTrigger] reads the clock
    twice.  For an alert whose [time] matches the schema's pattern, two
    calls with the same first reading leave the same document whenever
    each second reading is at most a minute after the first. *)
Theorem next_trigger_deterministic this clock0 clock1 clock1' :
  timePattern (time this) = true ->
  clockReading clock1 -> clockReading clock1' ->
  clock0 <= clock1 <= clock0 + msPerMinute ->
  clock0 <= clock1' <= clock0 + msPerMinute ->
  calculateNextTrigger clock0 clock1 this
  = calculateNextTrigger clock0 clock1' this.
Proof.
  intros Hs Hc Hc' Hle Hle'.
  rewrite !calculateNextTrigger_eq by assumption.
  now rewrite (triggerFor_second_reading clock0 clock1),
    (triggerFor_second_reading clock0 clock1').
Qed.

(** C8, as the code has it.  [snooze] does not look at [isActive].  On an
    inactive alert it throws its limit error, leaving the document as it
    was, when [currentSnoozes >= maxSnoozes]; otherwise it returns, adds 1
    to [currentSnoozes] and sets [nextTrigger] to its clock reading plus
    [snoozeTime] minutes, and the alert stays inactive. *)
Theorem snooze_when_inactive this clock :
  isActive this = false ->
  snoozeTimeValid this -> clockReading clock ->
  let this' := after (snooze clock) this in
  (currentSnoozes this >= maxSnoozes this ->
   completion (snooze clock) this = Throw SnoozeLimitExceededError
   /\ this' = this)
  /\ (currentSnoozes this < maxSnoozes this ->
      completion (snooze clock) this = Normal tt
      /\ currentSnoozes this' = currentSnoozes this + 1
      /\ nextTrigger this'
         = Some (Some (clock + snoozeTime this * msPerMinute))
      /\ status this' = inactive).
Proof.
  intros Hact Hst Hc this'. unfold this', completion, after. split; intros H.
  - rewrite snooze_throws by lia. split; reflexivity.
  - rewrite snooze_until; [ | exact H | ].
    + unfold status. cbn. rewrite Hact. repeat split.
    + unfold snoozeTimeValid, clockReading, maxTimeValue, msPerDay,
        msPerMinute in *.
      lia.
Qed.

(** * Further properties of the alert methods *)



(** The trigger is [todayAt] moved by no day or by one day. *)
Lemma triggerFor_cases clock s :
  (clock < todayAt clock s /\ triggerFor clock clock s = todayAt clock s)
  \/ (todayAt clock s <= clock
      /\ triggerFor clock clock s = todayAt clock s + msPerDay).
Proof.
  rewrite triggerFor_one_reading.
  destruct (Z.ltb_spec clock (todayAt clock s)); [left | right]; auto.
Qed.

(** A reading between [clock] and the trigger of [clock] has the same
    trigger. *)
Lemma triggerFor_stable clock clock' s :
  timePattern s = true ->
  clock <= clock' < triggerFor clock clock s ->
  triggerFor clock' clock' s = triggerFor clock clock s.
Proof.
  intros Hs Hbetween.
  pose proof (todayAt_near clock s Hs) as [Hnear Hend].
  pose proof (todayAt_near clock' s Hs) as [Hnear' _].
  assert (Hday : Day (LocalTime clock') = Day (LocalTime clock)
                 \/ (Day (LocalTime clock') = Day (LocalTime clock) + 1
                     /\ todayAt clock s <= clock)).
  { destruct (triggerFor_cases clock s) as [[Hlt Heq] | [Hle Heq]];
      rewrite Heq in Hbetween.
    - left. revert Hlt Hbetween. destruct (timePattern_reads s Hs) as (_ & Hh & Hm).
      unfold todayAt, LocalTime, UTC, MakeDate, Day, MakeTime, msPerHour,
        msPerMinute, msPerSecond, msPerDay.
      intros. Z.div_mod_to_equations. lia.
    - assert (Hd : Day (LocalTime clock') = Day (LocalTime clock)
                   \/ Day (LocalTime clock') = Day (LocalTime clock) + 1).
      { revert Hle Hbetween. destruct (timePattern_reads s Hs) as (_ & Hh & Hm).
        unfold todayAt, LocalTime, UTC, MakeDate, Day, MakeTime, msPerHour,
          msPerMinute, msPerSecond, msPerDay.
        intros. Z.div_mod_to_equations. lia. }
      destruct Hd; [left | right]; auto. }
  destruct Hday as [Hsame | [Hnext Hpast]].
  - pose proof (todayAt_same_day clock clock' s Hsame) as Ht.
    destruct (triggerFor_cases clock s) as [[Hlt Heq] | [Hle Heq]];
      destruct (triggerFor_cases clock' s) as [[Hlt' Heq'] | [Hle' Heq']];
      rewrite Heq, Heq', ?Ht in *; lia.
  - pose proof (todayAt_next_day clock clock' s Hnext) as Ht.
    destruct (triggerFor_cases clock s) as [[Hlt Heq] | [Hle Heq]];
      destruct (triggerFor_cases clock' s) as [[Hlt' Heq'] | [Hle' Heq']];
      rewrite Heq, Heq', ?Ht in *; lia.
Qed.


(** X2.  Whatever the frequency, the stored trigger is on the local
    clock at the alert's hour and minute with zero seconds and
    milliseconds, on the calendar day of [now] or on the next one. *)
Theorem next_trigger_on_the_minute this clock0 clock1 :
  timePattern (time this) = true ->
  clockReading clock1 -> clock0 <= clock1 <= clock0 + msPerMinute ->
  exists t,
    nextTrigger (after (calculateNextTrigger clock0 clock1) this)
    = Some (Some t)
    /\ HourFromTime (LocalTime t) = hoursOf (time this)
    /\ MinFromTime (LocalTime t) = minutesOf (time this)
    /\ SecFromTime (LocalTime t) = 0
    /\ msFromTime (LocalTime t) = 0
    /\ (Day (LocalTime t) = Day (LocalTime clock0)
        \/ Day (LocalTime t) = Day (LocalTime clock0) + 1).
Proof.
  intros Hs Hc Hle. unfold after.
  rewrite calculateNextTrigger_eq by assumption. cbn.
  rewrite triggerFor_second_reading by assumption.
  eexists. split; [reflexivity | ].
  pose proof (todayAt_fields clock0 (time this) 0 Hs) as H0.
  pose proof (todayAt_fields clock0 (time this) 1 Hs) as H1.
  cbv zeta in H0, H1.
  rewrite Z.mul_0_l, !Z.add_0_r in H0. rewrite Z.mul_1_l in H1.
  destruct (triggerFor_cases clock0 (time this)) as [[_ ->] | [_ ->]];
    [destruct H0 as (Hd & Hh & Hm & Hsec & Hms)
    | destruct H1 as (Hd & Hh & Hm & Hsec & Hms)];
    repeat (split; [assumption | ]); [left | right]; assumption.
Qed.

(** X3.  Computing the trigger again at any later reading that is still
    before the stored trigger leaves the document as it is. *)
Theorem next_trigger_stable this clock clock' t :
  timePattern (time this) = true ->
  clockReading clock -> clockReading clock' ->
  nextTrigger (after (calculateNextTrigger clock clock) this) = Some (Some t) ->
  clock <= clock' < t ->
  after (calculateNextTrigger clock' clock')
        (after (calculateNextTrigger clock clock) this)
  = after (calculateNextTrigger clock clock) this.
Proof.
  intros Hs Hc Hc' Ht Hbetween. unfold after in *.
  rewrite calculateNextTrigger_eq in * by assumption. cbn [fst] in *.
  rewrite calculateNextTrigger_eq by assumption.
  cbn in Ht. injection Ht as Ht. subst t.
  cbn. rewrite (triggerFor_stable clock clock' (time this) Hs Hbetween).
  reflexivity.
Qed.


Lemma perform_frame op this :
  let this' := after (perform op) this in
  time this' = time this /\ frequency this' = frequency this
  /\ daysOfWeek this' = daysOfWeek this /\ isActive this' = isActive this
  /\ snoozeTime this' = snoozeTime this /\ maxSnoozes this' = maxSnoozes this.
Proof.
  unfold after.
  destruct op as [c | c0 c1 c2 | c0 c1]; cbn [perform].
  - destruct (Z.le_gt_cases (maxSnoozes this) (currentSnoozes this)) as [H | H].
    + rewrite snooze_throws by assumption. cbn. repeat split.
    + destruct (snooze_returns c this H) as [d ->]. cbn. repeat split.
  - rewrite markTriggered_frame. cbn. repeat split.
  - destruct (calculateNextTrigger_frame c0 c1 this) as [d ->]. cbn.
    repeat split.
Qed.

(** X5.  No history of [snooze], [markTriggered] and
    [calculateNextTrigger] calls changes the schedule of an alert
    ([time], [frequency], [daysOfWeek]), its snooze settings or
    [isActive]: an inactive alert stays inactive and an active one
    active. *)
Theorem lifecycle_frame ops : forall this,
  let this' := performAll ops this in
  time this' = time this /\ frequency this' = frequency this
  /\ daysOfWeek this' = daysOfWeek this /\ isActive this' = isActive this
  /\ snoozeTime this' = snoozeTime this /\ maxSnoozes this' = maxSnoozes this
  /\ (status this' = inactive <-> status this = inactive).
Proof.
  induction ops as [| op ops IH]; intros this.
  - cbn. repeat split; auto.
  - pose proof (perform_frame op this) as Hop. cbv zeta in Hop.
    destruct Hop as (H1 & H2 & H3 & H4 & H5 & H6).
    specialize (IH (after (perform op) this)). cbv zeta in IH.
    destruct IH as (I1 & I2 & I3 & I4 & I5 & I6 & _).
    unfold performAll in *. cbn [fold_left]. cbv zeta.
    assert (Hact : isActive
                     (fold_left (fun doc op0 => after (perform op0) doc) ops
                        (after (perform op) this))
                   = isActive this) by congruence.
    repeat split; try congruence;
      unfold status; rewrite Hact; destruct (isActive this); cbn; auto;
      repeat match goal with
             | |- context [if ?b then _ else _] => destruct b
             end; discriminate.
Qed.

(** X6.  After [markTriggered], whatever the counter was before, exactly
    [maxSnoozes] further [snooze] calls return and the next one throws
    the limit error. *)
Theorem fire_restores_snoozes this clock0 clock1 clock2 clocks :
  Z.of_nat (List.length clocks) = maxSnoozes this ->
  let fired := after (markTriggered clock0 clock1 clock2) this in
  completion (snoozes clocks) fired = Normal tt
  /\ forall clock,
      completion (snooze clock) (after (snoozes clocks) fired)
      = Throw SnoozeLimitExceededError.
Proof.
  intros Hlen fired.
  assert (Hf : currentSnoozes fired = 0 /\ maxSnoozes fired = maxSnoozes this).
  { unfold fired, after. rewrite markTriggered_frame. cbn. auto. }
  destruct Hf as [Hzero Hmax].
  destruct (snoozes_within_limit clocks fired ltac:(lia)) as (Hc & Hn & Hm & _).
  split; [exact Hc | ].
  intros clock. unfold completion. rewrite snooze_throws; [reflexivity | ].
  fold (after (snoozes clocks) fired). lia.
Qed.

(** X7.  [markTriggered] does not look at [isActive]: on an inactive
    alert it returns, records [lastTriggered], resets the counter and
    stores a trigger after [now], and the alert stays inactive. *)
Theorem fire_when_inactive this clock0 clock1 clock2 :
  isActive this = false ->
  timePattern (time this) = true ->
  clockReading clock2 -> clock1 <= clock2 ->
  let this' := after (markTriggered clock0 clock1 clock2) this in
  completion (markTriggered clock0 clock1 clock2) this = Normal tt
  /\ status this' = inactive
  /\ lastTriggered this' = Some (Some clock0)
  /\ currentSnoozes this' = 0
  /\ exists t, nextTrigger this' = Some (Some t) /\ clock1 < t.
Proof.
  intros Hact Hs Hc Hle this'.
  destruct (calculateNextTrigger_ahead this clock1 clock2 Hs Hc Hle)
    as (_ & Ht & Hlt).
  unfold this', completion, after. rewrite markTriggered_frame.
  cbn [fst snd]. unfold status. cbn. rewrite Hact. cbn.
  repeat (split; [reflexivity | ]).
  exists (triggerFor clock1 clock2 (time this)). split; assumption.
Qed.

End Zone.

(** * The claims on sample documents, in the UTC zone *)

(** The 08:00 alert at 09:00 on 1 January 2024. *)
Lemma next_trigger_in_future_witness :
  let this := sampleAlert "08:00" weekly [] true 3 0 in
  let now := localInstant 0 2024 0 1 9 0 in
  timePattern (time this) = true /\ clockReading now /\ now <= now
  /\ exists t,
      nextTrigger (after (calculateNextTrigger 0 now now) this) = Some (Some t)
      /\ now < t.
Proof.
  intros this now.
  assert (Hs : timePattern (time this) = true) by reflexivity.
  assert (Hc : clockReading now) by (vm_compute; discriminate).
  assert (Hle : now <= now) by lia.
  repeat (split; [assumption | ]).
  exact (proj2 (next_trigger_in_future 0 this now now Hs Hc Hle)).
Defined.

Lemma daily_next_trigger_witness :
  let this := sampleAlert "21:30" daily [] true 3 0 in
  let now := localInstant 0 2024 1 29 22 0 in
  Z.abs 0 <= msPerDay /\ frequency this = daily
  /\ timePattern (time this) = true /\ clockReading now
  /\ now <= now <= now + msPerMinute
  /\ nextTrigger (after (calculateNextTrigger 0 now now) this)
     = Some (Some (localInstant 0 2024 2 1 21 30)).
Proof.
  intros this now.
  assert (Hz : Z.abs 0 <= msPerDay) by (vm_compute; discriminate).
  assert (Hs : timePattern (time this) = true) by reflexivity.
  assert (Hc : clockReading now) by (vm_compute; discriminate).
  assert (Hle : now <= now <= now + msPerMinute) by (vm_compute; split; discriminate).
  repeat (split; [assumption || reflexivity | ]).
  destruct (proj1 (daily_next_trigger 0 Hz) this now now eq_refl Hs Hc Hle)
    as [Hn _].
  exact Hn.
Defined.

Lemma monthly_next_trigger_witness :
  let this := sampleAlert "08:00" monthly [] true 3 0 in
  let now := localInstant 0 2024 0 15 9 0 in
  Z.abs 0 <= msPerDay /\ frequency this = monthly
  /\ timePattern (time this) = true /\ clockReading now
  /\ now <= now <= now + msPerMinute
  /\ todayAt 0 now (time this) <= now
  /\ nextTrigger (after (calculateNextTrigger 0 now now) this)
     = Some (Some (localInstant 0 2024 0 16 8 0)).
Proof.
  intros this now.
  assert (Hz : Z.abs 0 <= msPerDay) by (vm_compute; discriminate).
  assert (Hs : timePattern (time this) = true) by reflexivity.
  assert (Hc : clockReading now) by (vm_compute; discriminate).
  assert (Hle : now <= now <= now + msPerMinute) by (vm_compute; split; discriminate).
  assert (Hp : todayAt 0 now (time this) <= now) by (vm_compute; discriminate).
  repeat (split; [assumption || reflexivity | ]).
  destruct (proj1 (monthly_next_trigger 0 Hz) this now now eq_refl Hs Hc Hle Hp)
    as [Hn _].
  exact Hn.
Defined.

Lemma custom_next_trigger_witness :
  let this := sampleAlert "08:00" custom [] true 3 0 in
  let now := localInstant 0 2024 0 1 9 0 in
  frequency this = custom /\ timePattern (time this) = true
  /\ clockReading now /\ now <= now <= now + msPerMinute
  /\ completion (calculateNextTrigger 0 now now) this = Normal tt
  /\ nextTrigger (after (calculateNextTrigger 0 now now) this)
     = Some (Some (localInstant 0 2024 0 2 8 0)).
Proof.
  intros this now.
  assert (Hs : timePattern (time this) = true) by reflexivity.
  assert (Hc : clockReading now) by (vm_compute; discriminate).
  assert (Hle : now <= now <= now + msPerMinute) by (vm_compute; split; discriminate).
  assert (Hf : frequency this = custom) by reflexivity.
  repeat (split; [assumption | ]).
  exact (custom_next_trigger 0 this now now Hf Hs Hc Hle).
Defined.

Lemma snooze_limit_witness :
  let this := sampleAlert "08:00" daily [] true 3 0 in
  let clocks := [1704099600000; 1704100500000; 1704101400000] in
  currentSnoozes this = 0 /\ isActive this = true
  /\ Z.of_nat (List.length clocks) = maxSnoozes this
  /\ completion (snoozes 0 clocks) this = Normal tt
  /\ status (after (snoozes 0 clocks) this) = overdue
  /\ completion (snooze 0 1704102300000) (after (snoozes 0 clocks) this)
     = Throw SnoozeLimitExceededError.
Proof.
  intros this clocks.
  destruct (snooze_limit 0 this) as (_ & _ & H).
  destruct (H clocks eq_refl eq_refl eq_refl) as (Hret & _ & Hst & Hlast).
  repeat (split; [assumption || reflexivity | ]).
  apply Hlast.
Defined.

Lemma snooze_advances_witness :
  let this := sampleAlert "08:00" daily [] true 3 0 in
  let now := 1704099600000 in
  snoozeTimeValid this /\ clockReading now
  /\ completion (snooze 0 now) this = Normal tt
  /\ currentSnoozes (after (snooze 0 now) this) = currentSnoozes this + 1
  /\ nextTrigger (after (snooze 0 now) this)
     = Some (Some (now + snoozeTime this * msPerMinute)).
Proof.
  intros this now.
  assert (Hv : snoozeTimeValid this) by (vm_compute; split; discriminate).
  assert (Hc : clockReading now) by (vm_compute; discriminate).
  assert (Hr : completion (snooze 0 now) this = Normal tt) by reflexivity.
  repeat (split; [assumption | ]).
  exact (proj1 (snooze_advances 0) this now Hv Hc Hr).
Defined.

Lemma fire_rearms_witness :
  let this := sampleAlert "08:00" daily [] true 3 3 in
  let now := localInstant 0 2024 0 1 9 0 in
  let this' := after (markTriggered 0 now now now) this in
  (status this = active \/ status this = overdue)
  /\ timePattern (time this) = true /\ clockReading now /\ now <= now
  /\ lastTriggered this' = Some (Some now)
  /\ currentSnoozes this' = 0
  /\ status this' = active.
Proof.
  intros this now this'.
  assert (Hst : status this = active \/ status this = overdue)
    by (right; reflexivity).
  assert (Hs : timePattern (time this) = true) by reflexivity.
  assert (Hc : clockReading now) by (vm_compute; discriminate).
  assert (Hle : now <= now) by lia.
  destruct (fire_rearms 0 this now now now Hst Hs Hc Hle)
    as (_ & Hl & Hn & _ & _ & Ha & _).
  repeat (split; [assumption | ]).
  apply Ha. vm_compute. discriminate.
Defined.

Lemma snooze_when_inactive_witness :
  let this := sampleAlert "08:00" daily [] false 3 0 in
  let now := 1704099600000 in
  isActive this = false /\ snoozeTimeValid this /\ clockReading now
  /\ currentSnoozes this < maxSnoozes this
  /\ completion (snooze 0 now) this = Normal tt
  /\ currentSnoozes (after (snooze 0 now) this) = currentSnoozes this + 1.
Proof.
  intros this now.
  assert (Hv : snoozeTimeValid this) by (vm_compute; split; discriminate).
  assert (Hc : clockReading now) by (vm_compute; discriminate).
  assert (Hlt : currentSnoozes this < maxSnoozes this) by reflexivity.
  destruct (proj2 (snooze_when_inactive 0 this now eq_refl Hv Hc) Hlt)
    as (Hr & Hn & _).
  repeat (split; [assumption || reflexivity | ]).
  exact Hn.
Defined.

Lemma snoozes_bounded_invariant_witness :
  let this := sampleAlert "08:00" daily [] true 2 0 in
  let ops := [OpSnooze 1704099600000; OpSnooze 1704100500000;
              OpSnooze 1704101400000;
              OpMarkTriggered 1704102300000 1704102300000 1704102300000;
              OpSnooze 1704103200000] in
  currentSnoozes this = 0 /\ 0 <= maxSnoozes this
  /\ snoozesBounded (performAll 0 ops this).
Proof.
  intros this ops.
  assert (Hm : 0 <= maxSnoozes this) by (vm_compute; discriminate).
  split; [reflexivity | ]. split; [exact Hm | ].
  exact (proj1 (snoozes_bounded_invariant 0 this ops eq_refl Hm)).
Defined.

Lemma next_trigger_deterministic_witness :
  let this := sampleAlert "08:00" daily [] true 3 0 in
  let now := localInstant 0 2024 0 1 7 59 in
  timePattern (time this) = true
  /\ clockReading now /\ clockReading (now + 59999)
  /\ now <= now <= now + msPerMinute
  /\ now <= now + 59999 <= now + msPerMinute
  /\ calculateNextTrigger 0 now now this
     = calculateNextTrigger 0 now (now + 59999) this.
Proof.
  intros this now.
  assert (Hs : timePattern (time this) = true) by reflexivity.
  assert (Hc : clockReading now) by (vm_compute; discriminate).
  assert (Hc' : clockReading (now + 59999)) by (vm_compute; discriminate).
  assert (Hle : now <= now <= now + msPerMinute)
    by (vm_compute; split; discriminate).
  assert (Hle' : now <= now + 59999 <= now + msPerMinute)
    by (vm_compute; split; discriminate).
  repeat (split; [assumption | ]).
  exact (next_trigger_deterministic 0 this now now (now + 59999)
           Hs Hc Hc' Hle Hle').
Defined.

(** * Where the code departs from the specification *)

(** C3.  A monthly alert computed on 31 March 2024 at 09:00: the
    specification's rule gives 30 April, the code gives 1 April. *)
Lemma monthly_clamp_counterexample :
  let this := sampleAlert "08:00" monthly [] true 3 0 in
  let now := localInstant 0 2024 2 31 9 0 in
  todayAt 0 now (time this) <= now
  /\ spec_monthly_next 0 (time this) now = localInstant 0 2024 3 30 8 0
  /\ nextTrigger (after (calculateNextTrigger 0 now now) this)
     = Some (Some (localInstant 0 2024 3 1 8 0))
  /\ nextTrigger (after (calculateNextTrigger 0 now now) this)
     <> Some (Some (spec_monthly_next 0 (time this) now)).
Proof.
  vm_compute. repeat split; discriminate.
Qed.

(** C4.  A custom alert for Mondays computed on Monday 1 January 2024 at
    09:00: the specification's rule gives Monday 8 January, the code
    gives Tuesday 2 January; and with no day at all the code returns
    where the specification's rule is an error. *)
Lemma custom_days_counterexample :
  let now := localInstant 0 2024 0 1 9 0 in
  let this := sampleAlert "08:00" custom [monday] true 3 0 in
  let none := sampleAlert "08:00" custom [] true 3 0 in
  spec_custom_next 0 (daysOfWeek this) (time this) now
  = Normal (localInstant 0 2024 0 8 8 0)
  /\ nextTrigger (after (calculateNextTrigger 0 now now) this)
     = Some (Some (localInstant 0 2024 0 2 8 0))
  /\ onDay 0 (daysOfWeek this) (localInstant 0 2024 0 2 8 0) = false
  /\ spec_custom_next 0 (daysOfWeek none) (time none) now
     = Throw InvalidScheduleError
  /\ completion (calculateNextTrigger 0 now now) none = Normal tt.
Proof.
  vm_compute. repeat split.
Qed.

(** C7.  An active alert with [maxSnoozes = 0] is [overdue], and is
    [overdue] again after [markTriggered]. *)
Lemma fire_rearms_counterexample :
  let this := sampleAlert "08:00" daily [] true 0 0 in
  let now := localInstant 0 2024 0 1 9 0 in
  status this = overdue
  /\ status (after (markTriggered 0 now now now) this) = overdue
  /\ status (after (markTriggered 0 now now now) this) <> active.
Proof.
  vm_compute. repeat split; discriminate.
Qed.

(** C8.  [snooze] on an inactive alert returns and changes the
    document. *)
Lemma snooze_inactive_counterexample :
  let this := sampleAlert "08:00" daily [] false 3 0 in
  let now := localInstant 0 2024 0 1 9 0 in
  status this = inactive
  /\ completion (snooze 0 now) this = Normal tt
  /\ currentSnoozes (after (snooze 0 now) this) = 1
  /\ after (snooze 0 now) this <> this.
Proof.
  vm_compute. repeat split; discriminate.
Qed.

(** C10.  Two calls on the same alert with the same reading of [now],
    one millisecond before 23:59 on 1 January 2024: when the second
    reading of one call falls after midnight, 60001 ms later, the two
    calls store triggers a day apart. *)
Lemma hidden_clock_counterexample :
  let this := sampleAlert "23:59" daily [] true 3 0 in
  let now := localInstant 0 2024 0 1 23 58 + 59999 in
  let later := localInstant 0 2024 0 2 0 0 in
  later = now + 60001
  /\ nextTrigger (after (calculateNextTrigger 0 now now) this)
     = Some (Some (localInstant 0 2024 0 1 23 59))
  /\ nextTrigger (after (calculateNextTrigger 0 now later) this)
     = Some (Some (localInstant 0 2024 0 2 23 59))
  /\ nextTrigger (after (calculateNextTrigger 0 now now) this)
     <> nextTrigger (after (calculateNextTrigger 0 now later) this).
Proof.
  vm_compute. repeat split; discriminate.
Qed.

(** * The helper functions *)


(** With one date invalid every part is [NaN]. *)
Lemma getTimeDifference_invalid date2 clock :
  Helpers.getTimeDifference NaN (Some date2) clock
  = Helpers.mkTimeDifference NaN NaN NaN NaN.
Proof. destruct date2; reflexivity. Qed.


Lemma length_append (s1 s2 : string) :
  String.length (s1 ++ s2) = (String.length s1 + String.length s2)%nat.
Proof. induction s1 as [| c s1 IH]; cbn; [reflexivity | now rewrite IH]. Qed.




Lemma sanitizeHtml_cons a s :
  Helpers.sanitizeHtml (String a s)
  = (Helpers.entityOf a ++ Helpers.sanitizeHtml s)%string.
Proof. destruct a as [[] [] [] [] [] [] [] []]; reflexivity. Qed.

(** X11.  The six replacements of [sanitizeHtml], made one after the
    other, write every character of the text exactly once: an entity
    for each of the six characters and the character itself otherwise;
    no entity written by an earlier replacement is touched by a later
    one. *)
Theorem sanitizeHtml_one_pass s :
  Helpers.sanitizeHtml s = Helpers.escapeOnce s.
Proof.
  induction s as [| a s IH]; [reflexivity | ].
  rewrite sanitizeHtml_cons, IH. reflexivity.
Qed.

Lemma occurs_app c (s1 s2 : string) :
  occurs c (s1 ++ s2) = occurs c s1 || occurs c s2.
Proof.
  induction s1 as [| a s1 IH]; cbn; [reflexivity | ].
  now rewrite IH, orb_assoc.
Qed.

Lemma entityOf_clean a :
  occurs "<" (Helpers.entityOf a) = false
  /\ occurs ">" (Helpers.entityOf a) = false
  /\ occurs "034" (Helpers.entityOf a) = false
  /\ occurs "'" (Helpers.entityOf a) = false
  /\ occurs "/" (Helpers.entityOf a) = false.
Proof. destruct a as [[] [] [] [] [] [] [] []]; repeat split. Qed.

(** X12.  The text [sanitizeHtml] returns contains none of the
    characters [<], [>], the double quote, the single quote and [/]; it
    is at least as long as the input, and a text with none of the six
    characters is returned as it is. *)
Theorem sanitizeHtml_output s :
  let r := Helpers.sanitizeHtml s in
  occurs "<" r = false /\ occurs ">" r = false /\ occurs "034" r = false
  /\ occurs "'" r = false /\ occurs "/" r = false
  /\ (String.length s <= String.length r)%nat
  /\ (occurs "&" s = false -> occurs "<" s = false -> occurs ">" s = false ->
      occurs "034" s = false -> occurs "'" s = false -> occurs "/" s = false ->
      r = s).
Proof.
  cbv zeta. induction s as [| a s IH]; [cbn; repeat split; auto | ].
  rewrite sanitizeHtml_cons, !occurs_app, length_append.
  destruct IH as (I1 & I2 & I3 & I4 & I5 & Il & Iid).
  destruct (entityOf_clean a) as (E1 & E2 & E3 & E4 & E5).
  rewrite I1, I2, I3, I4, I5, E1, E2, E3, E4, E5.
  repeat (split; [reflexivity | ]). split.
  - assert (1 <= String.length (Helpers.entityOf a))%nat
      by (destruct a as [[] [] [] [] [] [] [] []]; cbn; lia).
    cbn [String.length]. lia.
  - cbn [occurs]. intros H1 H2 H3 H4 H5 H6.
    apply orb_false_elim in H1, H2, H3, H4, H5, H6.
    destruct H1 as [H1 H1'], H2 as [H2 H2'], H3 as [H3 H3'],
      H4 as [H4 H4'], H5 as [H5 H5'], H6 as [H6 H6'].
    rewrite (Iid H1' H2' H3' H4' H5' H6').
    unfold Helpers.entityOf. now rewrite H1, H2, H3, H4, H5, H6.
Qed.

(** * The error class, the duration virtual and the snooze endpoint *)

(** X13.  Among the three-digit status codes from 100 to 599,
    [ApiError] has status [fail] exactly for 400 to 499 and [error] for
    the others. *)
Theorem ApiError_status_client_errors code :
  100 <= code <= 599 ->
  (ApiError.status code = "fail"%string <-> 400 <= code <= 499)
  /\ (ApiError.status code = "error"%string <-> ~ 400 <= code <= 499).
Proof.
  intros Hc.
  assert (Hall : forallb
                   (fun k =>
                      let c := Z.of_nat k in
                      String.eqb (ApiError.status c)
                        (if (400 <=? c) && (c <=? 499) then "fail" else "error"))
                   (seq 100 500) = true) by (vm_compute; reflexivity).
  rewrite forallb_forall in Hall.
  specialize (Hall (Z.to_nat code)).
  rewrite in_seq, Z2Nat.id in Hall by lia.
  specialize (Hall ltac:(lia)). cbv zeta in Hall.
  apply String.eqb_eq in Hall. rewrite Hall.
  destruct (Z.leb_spec 400 code); destruct (Z.leb_spec code 499); cbn;
    repeat split; intros; try discriminate; try lia; auto.
Qed.



(** * The Report model *)




(** * The Discussion model *)













(** * The authentication middleware *)

Lemma split_first sep (a b : string) :
  occurs sep a = false ->
  split sep (a ++ String sep b) = a :: split sep b.
Proof.
  induction a as [| c a IH]; intros Hn.
  - cbn. now rewrite Ascii.eqb_refl.
  - cbn in Hn. apply orb_false_elim in Hn. destruct Hn as [Hc Ha].
    cbn [append split]. rewrite Hc, (IH Ha). reflexivity.
Qed.

(** The token of a header with a first word and a rest is the first
    word of the rest, whatever the first word. *)
Lemma tokenOf_scheme scheme rest :
  occurs " " scheme = false ->
  Auth.tokenOf (Some (scheme ++ String " " rest)%string)
  = nth_error (split " " rest) 0.
Proof.
  intros Hn. pose proof (split_first " " scheme rest Hn) as Hs.
  unfold Auth.tokenOf. destruct scheme as [| c scheme].
  - reflexivity.
  - cbn [append] in *. rewrite Hs. reflexivity.
Qed.

(** X21.  [authenticateToken] calls [next()] exactly when the header has
    a non-empty second word, [jwt.verify] accepts that word, the user of
    its payload is found and the user is active, and then [req.user] is
    that user.  Every other request is answered with status 401 or
    500. *)
Theorem authenticateToken_next verify findById authorization :
  (forall u,
      Auth.authenticateToken verify findById authorization = Auth.Next u
      <-> exists token decoded user,
          Auth.tokenOf authorization = Some token /\ token <> EmptyString
          /\ verify token = Auth.Returned decoded
          /\ findById (Auth.id decoded) = Auth.Returned (Some user)
          /\ Auth.isActive user = true
          /\ u = Some user)
  /\ (forall status error,
        Auth.authenticateToken verify findById authorization
        = Auth.Json status error ->
        status = 401 \/ status = 500).
Proof.
  assert (Hrej : forall name,
             (forall u, Auth.rejected name <> Auth.Next u)
             /\ forall st e, Auth.rejected name = Auth.Json st e ->
                             st = 401 \/ st = 500).
  { intros name. unfold Auth.rejected.
    destruct (String.eqb name "JsonWebTokenError");
      [ | destruct (String.eqb name "TokenExpiredError")];
      (split; [discriminate | intros st e H; injection H as <- _; auto]). }
  unfold Auth.authenticateToken.
  destruct (Auth.tokenOf authorization) as [[| c token] | ] eqn:Htok.
  - split.
    + intros u. split; [discriminate | ].
      intros (t & d & usr & Ht & Hne & _). injection Ht as <-. now elim Hne.
    + intros st e H. injection H as <- _. auto.
  - destruct (verify (String c token)) as [decoded | name] eqn:Hv.
    + destruct (findById (Auth.id decoded)) as [[user | ] | name] eqn:Hf.
      * destruct (Auth.isActive user) eqn:Ha; cbn [negb]; split.
        -- intros u. split.
           ++ intros H. injection H as <-.
              exists (String c token), decoded, user.
              repeat split; auto. discriminate.
           ++ intros (t & d & usr & Ht & _ & Hv' & Hf' & _ & ->).
              injection Ht as <-. rewrite Hv in Hv'. injection Hv' as <-.
              rewrite Hf in Hf'. injection Hf' as <-. reflexivity.
        -- discriminate.
        -- intros u. split; [discriminate | ].
           intros (t & d & usr & Ht & _ & Hv' & Hf' & Ha' & _).
           injection Ht as <-. rewrite Hv in Hv'. injection Hv' as <-.
           rewrite Hf in Hf'. injection Hf' as <-. congruence.
        -- intros st e H. injection H as <- _. auto.
      * split.
        -- intros u. split; [discriminate | ].
           intros (t & d & usr & Ht & _ & Hv' & Hf' & _).
           injection Ht as <-. rewrite Hv in Hv'. injection Hv' as <-.
           rewrite Hf in Hf'. discriminate Hf'.
        -- intros st e H. injection H as <- _. auto.
      * destruct (Hrej name) as [Hn Hj]. split; [ | exact Hj].
        intros u. split; [intros H; now elim (Hn u) | ].
        intros (t & d & usr & Ht & _ & Hv' & Hf' & _).
        injection Ht as <-. rewrite Hv in Hv'. injection Hv' as <-.
        rewrite Hf in Hf'. discriminate Hf'.
    + destruct (Hrej name) as [Hn Hj]. split; [ | exact Hj].
      intros u. split; [intros H; now elim (Hn u) | ].
      intros (t & d & usr & Ht & _ & Hv' & _).
      injection Ht as <-. rewrite Hv in Hv'. discriminate Hv'.
  - split.
    + intros u. split; [discriminate | ].
      intros (t & d & usr & Ht & _). discriminate Ht.
    + intros st e H. injection H as <- _. auto.
Qed.

(** X22.  [optionalAuth] always calls [next()]; it sets [req.user]
    exactly on the requests [authenticateToken] lets through, to the
    same user. *)
Theorem optionalAuth_consistent verify findById authorization :
  Auth.optionalAuth verify findById authorization
  = match Auth.authenticateToken verify findById authorization with
    | Auth.Next u => Auth.Next u
    | Auth.Json _ _ => Auth.Next None
    end.
Proof.
  unfold Auth.optionalAuth, Auth.authenticateToken, Auth.rejected.
  destruct (Auth.tokenOf authorization) as [[| c token] | ]; try reflexivity.
  destruct (verify (String c token)) as [decoded | name].
  - destruct (findById (Auth.id decoded)) as [[user | ] | name];
      try reflexivity.
    + destruct (Auth.isActive user); reflexivity.
    + destruct (String.eqb name "JsonWebTokenError");
        [ | destruct (String.eqb name "TokenExpiredError")]; reflexivity.
  - destruct (String.eqb name "JsonWebTokenError");
      [ | destruct (String.eqb name "TokenExpiredError")]; reflexivity.
Qed.

(** X23.  The first word of the header is not looked at: a header made
    of any word without a space, a space and a rest is treated as the
    header [Bearer] with the same rest. *)
Theorem authenticateToken_any_scheme verify findById scheme rest :
  occurs " " scheme = false ->
  Auth.authenticateToken verify findById
    (Some (scheme ++ String " " rest)%string)
  = Auth.authenticateToken verify findById
      (Some ("Bearer" ++ String " " rest)%string).
Proof.
  intros Hn. unfold Auth.authenticateToken.
  rewrite (tokenOf_scheme scheme rest Hn).
  rewrite (tokenOf_scheme "Bearer" rest eq_refl). reflexivity.
Qed.

(** * The [formatDate] helper *)

Lemma append_assoc (a b c : string) : ((a ++ b) ++ c = a ++ (b ++ c))%string.
Proof. induction a as [| x a IH]; cbn; [reflexivity | now rewrite IH]. Qed.

Lemma prefix_append (pat b : string) : prefix pat (pat ++ b) = true.
Proof.
  induction pat as [| c pat IH]; cbn; [now destruct b | ].
  destruct (ascii_dec c c) as [_ | Hne]; [exact IH | now elim Hne].
Qed.

Lemma dropChars_append (pat b : string) :
  dropChars (String.length pat) (pat ++ b) = b.
Proof. induction pat as [| c pat IH]; cbn; [reflexivity | exact IH]. Qed.

(** A pattern whose first character does not occur in the text is not
    found. *)
Lemma replaceFirst_absent p0 pat rep s :
  occurs p0 s = false -> replaceFirst (String p0 pat) rep s = s.
Proof.
  induction s as [| c s IH]; intros Hn; [reflexivity | ].
  cbn in Hn. apply orb_false_elim in Hn. destruct Hn as [Hc Hs].
  cbn [replaceFirst prefix].
  destruct (ascii_dec p0 c) as [-> | _];
    [now rewrite Ascii.eqb_refl in Hc | ].
  now rewrite IH.
Qed.

Lemma replaceFirst_prefix pat rep s :
  prefix pat s = true ->
  replaceFirst pat rep s = (rep ++ dropChars (String.length pat) s)%string.
Proof. intros H. destruct s; cbn [replaceFirst]; now rewrite H. Qed.

(** The pattern is replaced where it first stands when its first
    character does not occur before. *)
Lemma replaceFirst_found p0 pat rep a b :
  occurs p0 a = false ->
  replaceFirst (String p0 pat) rep (a ++ String p0 (pat ++ b))
  = (a ++ rep ++ b)%string.
Proof.
  induction a as [| c a IH]; intros Hn.
  - cbn [append]. change (String p0 (pat ++ b)) with (String p0 pat ++ b)%string.
    rewrite replaceFirst_prefix by apply prefix_append.
    now rewrite dropChars_append.
  - cbn in Hn. apply orb_false_elim in Hn. destruct Hn as [Hc Ha].
    cbn [append replaceFirst prefix].
    destruct (ascii_dec p0 c) as [-> | _];
      [now rewrite Ascii.eqb_refl in Hc | ].
    now rewrite (IH Ha).
Qed.

Lemma everyChar_occurs p c s :
  everyChar p s = true -> p c = false -> occurs c s = false.
Proof.
  intros Hs Hc. induction s as [| a s IH]; [reflexivity | ].
  cbn in *. apply andb_prop in Hs. destruct Hs as [Ha Hs].
  rewrite (IH Hs), orb_false_r.
  destruct (Ascii.eqb_spec a c) as [-> | _]; [congruence | reflexivity].
Qed.

Lemma everyChar_app p (a b : string) :
  everyChar p (a ++ b) = everyChar p a && everyChar p b.
Proof.
  induction a as [| x a IH]; cbn; [reflexivity | ].
  now rewrite IH, andb_assoc.
Qed.

(** A printed integer is made of digits and the minus sign. *)
Lemma ToString_decimal n : everyChar isDecimalChar (ToString (Some n)) = true.
Proof.
  assert (Hu : forall d,
             everyChar isDecimalChar (NilEmpty.string_of_uint d) = true)
    by (induction d; cbn; auto).
  unfold ToString, NilZero.string_of_int, NilZero.string_of_uint.
  destruct (Z.to_int n) as [d | d]; destruct d; cbn; try reflexivity;
    apply Hu.
Qed.

(** A number from 0 to 99 is padded to its two digits. *)
Lemma padStart_twoDigits n :
  0 <= n <= 99 ->
  padStart 2 "0" (ToString (Some n)) = twoDigits n
  /\ everyChar isDecimalChar (twoDigits n) = true.
Proof.
  intros Hn.
  assert (Hall : forallb
                   (fun k =>
                      let c := Z.of_nat k in
                      String.eqb (padStart 2 "0" (ToString (Some c)))
                                 (twoDigits c)
                      && everyChar isDecimalChar (twoDigits c))
                   (seq 0 100) = true) by (vm_compute; reflexivity).
  rewrite forallb_forall in Hall. specialize (Hall (Z.to_nat n)).
  rewrite in_seq, Z2Nat.id in Hall by lia.
  specialize (Hall ltac:(lia)). cbv zeta in Hall.
  apply andb_prop in Hall. destruct Hall as [H1 H2].
  apply String.eqb_eq in H1. auto.
Qed.

Lemma ToString_four_digits n :
  1000 <= n <= 9999 -> String.length (ToString (Some n)) = 4%nat.
Proof.
  intros Hn.
  assert (Hall : forallb
                   (fun k =>
                      Nat.eqb
                        (String.length (ToString (Some (1000 + Z.of_nat k))))
                        4)
                   (seq 0 (Z.to_nat 9000)) = true) by (vm_compute; reflexivity).
  rewrite forallb_forall in Hall. specialize (Hall (Z.to_nat (n - 1000))).
  rewrite in_seq, Z2Nat.id in Hall by lia.
  specialize (Hall ltac:(lia)).
  replace (1000 + (n - 1000)) with n in Hall by lia.
  now apply Nat.eqb_eq in Hall.
Qed.

(** X24.  With the default format, [formatDate] of a valid date prints
    the local year, a hyphen, the two digits of the month from 01 to 12,
    a hyphen and the two digits of the day of the month: ten characters
    for a year of four digits.  An invalid date is printed as
    [NaN-NaN-NaN]. *)
Theorem formatDate_default LocalTZA t :
  let lt := LocalTime LocalTZA t in
  formatDate LocalTZA (Some t) None
  = (ToString (Some (YearFromTime lt)) ++ "-"
     ++ twoDigits (MonthFromTime lt + 1) ++ "-"
     ++ twoDigits (DateFromTime lt))%string
  /\ (1000 <= YearFromTime lt <= 9999 ->
      String.length (formatDate LocalTZA (Some t) None) = 10%nat)
  /\ formatDate LocalTZA NaN None = "NaN-NaN-NaN"%string.
Proof.
  intros lt.
  assert (Hfmt : formatDate LocalTZA (Some t) None
                 = (ToString (Some (YearFromTime lt)) ++ "-"
                    ++ twoDigits (MonthFromTime lt + 1) ++ "-"
                    ++ twoDigits (DateFromTime lt))%string).
  { unfold formatDate.
    cbn [getFullYear getMonth getDate getHours getMinutes getSeconds
           option_map num_add].
    fold lt.
    pose proof (MonthFromTime_range LocalTZA lt) as Hm.
    pose proof (DateFromTime_range LocalTZA lt) as Hd.
    destruct (padStart_twoDigits (MonthFromTime lt + 1) ltac:(lia))
      as [-> Hmc].
    destruct (padStart_twoDigits (DateFromTime lt) ltac:(lia)) as [-> Hdc].
    pose proof (ToString_decimal (YearFromTime lt)) as Hyc.
    set (ys := ToString (Some (YearFromTime lt))) in *.
    set (ms := twoDigits (MonthFromTime lt + 1)) in *.
    set (ds := twoDigits (DateFromTime lt)) in *.
    rewrite (replaceFirst_prefix "YYYY" ys "YYYY-MM-DD" eq_refl).
    cbn [dropChars String.length].
    replace (ys ++ "-MM-DD")%string
      with ((ys ++ "-") ++ String "M" ("M" ++ "-DD"))%string
      by (rewrite append_assoc; reflexivity).
    rewrite replaceFirst_found
      by (apply (everyChar_occurs isDecimalChar);
          [rewrite everyChar_app, Hyc | ]; reflexivity).
    replace ((ys ++ "-") ++ ms ++ "-DD")%string
      with (((ys ++ "-") ++ ms ++ "-") ++ String "D" ("D" ++ EmptyString))%string
      by (rewrite !append_assoc; reflexivity).
    rewrite replaceFirst_found
      by (apply (everyChar_occurs isDecimalChar);
          [rewrite !everyChar_app, Hyc, Hmc | ]; reflexivity).
    set (txt := (((ys ++ "-") ++ ms ++ "-") ++ ds ++ EmptyString)%string).
    assert (Hall : everyChar isDecimalChar txt = true)
      by (unfold txt; rewrite !everyChar_app, Hyc, Hmc, Hdc; reflexivity).
    rewrite (replaceFirst_absent "H" "H" _ txt)
      by (apply (everyChar_occurs isDecimalChar); [exact Hall | reflexivity]).
    rewrite (replaceFirst_absent "m" "m" _ txt)
      by (apply (everyChar_occurs isDecimalChar); [exact Hall | reflexivity]).
    rewrite (replaceFirst_absent "s" "s" _ txt)
      by (apply (everyChar_occurs isDecimalChar); [exact Hall | reflexivity]).
    unfold txt. rewrite !append_assoc. cbn [append].
    replace (ds ++ EmptyString)%string with ds; [reflexivity | ].
    unfold ds, twoDigits. reflexivity. }
  split; [exact Hfmt | ]. split; [ | reflexivity].
  intros Hy. rewrite Hfmt, !length_append, ToString_four_digits by assumption.
  reflexivity.
Qed.

(** * The further properties on sample inputs *)


Lemma next_trigger_on_the_minute_witness :
  let this := sampleAlert "21:30" custom [sunday] true 3 0 in
  let now := localInstant 0 2024 11 31 22 0 in
  timePattern (time this) = true /\ clockReading now
  /\ now <= now <= now + msPerMinute
  /\ exists t,
      nextTrigger (after (calculateNextTrigger 0 now now) this) = Some (Some t)
      /\ HourFromTime (LocalTime 0 t) = 21 /\ MinFromTime (LocalTime 0 t) = 30.
Proof.
  intros this now.
  assert (Hs : timePattern (time this) = true) by reflexivity.
  assert (Hc : clockReading now) by (vm_compute; discriminate).
  assert (Hle : now <= now <= now + msPerMinute)
    by (vm_compute; split; discriminate).
  repeat (split; [assumption | ]).
  destruct (next_trigger_on_the_minute 0 this now now Hs Hc Hle)
    as (t & Ht & Hh & Hm & _).
  exists t. repeat split; assumption.
Defined.

Lemma next_trigger_stable_witness :
  let this := sampleAlert "08:00" daily [] true 3 0 in
  let now := localInstant 0 2024 0 1 9 0 in
  let later := localInstant 0 2024 0 2 7 59 in
  let t := localInstant 0 2024 0 2 8 0 in
  timePattern (time this) = true /\ clockReading now /\ clockReading later
  /\ nextTrigger (after (calculateNextTrigger 0 now now) this) = Some (Some t)
  /\ now <= later < t
  /\ after (calculateNextTrigger 0 later later)
           (after (calculateNextTrigger 0 now now) this)
     = after (calculateNextTrigger 0 now now) this.
Proof.
  intros this now later t.
  assert (Hs : timePattern (time this) = true) by reflexivity.
  assert (Hc : clockReading now) by (vm_compute; discriminate).
  assert (Hc' : clockReading later) by (vm_compute; discriminate).
  assert (Ht : nextTrigger (after (calculateNextTrigger 0 now now) this)
               = Some (Some t)) by reflexivity.
  assert (Hb : now <= later < t) by (vm_compute; split; [discriminate | reflexivity]).
  repeat (split; [assumption | ]).
  exact (next_trigger_stable 0 this now later t Hs Hc Hc' Ht Hb).
Defined.


Lemma fire_restores_snoozes_witness :
  let this := sampleAlert "08:00" daily [] true 2 2 in
  let now := localInstant 0 2024 0 1 9 0 in
  let clocks := [now + 1; now + 2] in
  let fired := after (markTriggered 0 now now now) this in
  Z.of_nat (List.length clocks) = maxSnoozes this
  /\ completion (snoozes 0 clocks) fired = Normal tt
  /\ completion (snooze 0 (now + 3)) (after (snoozes 0 clocks) fired)
     = Throw SnoozeLimitExceededError.
Proof.
  intros this now clocks fired.
  assert (Hl : Z.of_nat (List.length clocks) = maxSnoozes this) by reflexivity.
  destruct (fire_restores_snoozes 0 this now now now clocks Hl) as [Hr Hl'].
  split; [exact Hl | ]. split; [exact Hr | apply Hl'].
Defined.

Lemma fire_when_inactive_witness :
  let this := sampleAlert "08:00" daily [] false 3 1 in
  let now := localInstant 0 2024 0 1 9 0 in
  let this' := after (markTriggered 0 now now now) this in
  isActive this = false /\ timePattern (time this) = true
  /\ clockReading now /\ now <= now
  /\ status this' = inactive /\ currentSnoozes this' = 0.
Proof.
  intros this now this'.
  assert (Ha : isActive this = false) by reflexivity.
  assert (Hs : timePattern (time this) = true) by reflexivity.
  assert (Hc : clockReading now) by (vm_compute; discriminate).
  assert (Hle : now <= now) by lia.
  repeat (split; [assumption | ]).
  destruct (fire_when_inactive 0 this now now now Ha Hs Hc Hle)
    as (_ & Hst & _ & Hn & _).
  split; assumption.
Defined.




Lemma sanitizeHtml_output_witness :
  let s := "take 2 pills, twice"%string in
  occurs "&" s = false /\ occurs "<" s = false /\ occurs ">" s = false
  /\ occurs "034" s = false /\ occurs "'" s = false /\ occurs "/" s = false
  /\ Helpers.sanitizeHtml s = s.
Proof.
  intros s.
  destruct (sanitizeHtml_output s) as (_ & _ & _ & _ & _ & _ & Hid).
  repeat (split; [reflexivity | ]).
  exact (Hid eq_refl eq_refl eq_refl eq_refl eq_refl eq_refl).
Defined.

Lemma ApiError_status_client_errors_witness :
  100 <= 404 <= 599 /\ ApiError.status 404 = "fail"%string.
Proof.
  assert (Hc : 100 <= 404 <= 599) by lia.
  split; [exact Hc | ].
  apply (proj1 (ApiError_status_client_errors 404 Hc)). lia.
Defined.







Lemma authenticateToken_next_witness :
  let ann := Auth.mkUser "u1" true in
  let verify := fun token : string =>
                  if String.eqb token "good" then Auth.Returned (Auth.mkDecoded "u1")
                  else Auth.Thrown "JsonWebTokenError" in
  let findById := fun i : string =>
                    if String.eqb i "u1" then Auth.Returned (Some ann)
                    else Auth.Returned None in
  Auth.authenticateToken verify findById (Some "Bearer good"%string)
  = Auth.Next (Some ann)
  /\ forall status error,
      Auth.authenticateToken verify findById (Some "Bearer bad"%string)
      = Auth.Json status error ->
      status = 401 \/ status = 500.
Proof.
  intros ann verify findById. split.
  - apply (proj1 (authenticateToken_next verify findById
                    (Some "Bearer good"%string))).
    exists "good"%string, (Auth.mkDecoded "u1"), ann.
    repeat split; try reflexivity. discriminate.
  - exact (proj2 (authenticateToken_next verify findById
                    (Some "Bearer bad"%string))).
Defined.

Lemma authenticateToken_any_scheme_witness :
  let verify := fun token : string =>
                  if String.eqb token "good" then Auth.Returned (Auth.mkDecoded "u1")
                  else Auth.Thrown "JsonWebTokenError" in
  let findById := fun i : string =>
                    Auth.Returned (Some (Auth.mkUser i true)) in
  occurs " " "Basic" = false
  /\ Auth.authenticateToken verify findById (Some "Basic good"%string)
     = Auth.authenticateToken verify findById (Some "Bearer good"%string).
Proof.
  intros verify findById.
  assert (Hn : occurs " " "Basic" = false) by reflexivity.
  split; [exact Hn | ].
  exact (authenticateToken_any_scheme verify findById "Basic" "good" Hn).
Defined.

Lemma formatDate_default_witness :
  let t := localInstant 0 2024 1 29 9 0 in
  1000 <= YearFromTime (LocalTime 0 t) <= 9999
  /\ formatDate 0 (Some t) None = "2024-02-29"%string
  /\ String.length (formatDate 0 (Some t) None) = 10%nat.
Proof.
  intros t.
  assert (Hy : 1000 <= YearFromTime (LocalTime 0 t) <= 9999)
    by (vm_compute; split; discriminate).
  destruct (formatDate_default 0 t) as (Hf & Hl & _).
  split; [exact Hy | ]. split; [rewrite Hf; reflexivity | exact (Hl Hy)].
Defined.
